(** * Task entry points of [documents/tasks.py]

    A shallow embedding of the Celery tasks of paperless-ngx
    ([src/documents/tasks.py]) and the properties of their control flow:
    which collaborators are called, in which order, what survives an
    exception, and what each task reports to the task queue.

    The tasks are glue code: every step is a call to a collaborator (the
    barcode helpers, a parser plugin, the index, Django, the standard
    library).  The embedding keeps the relational store and the log as
    explicit state, treats every collaborator as a fallible function over
    the state of the outside world, and records each call with its outcome
    in the trace of the run.

    Embedded: [train_classifier], [consume_file], [sanity_check],
    [bulk_update_documents] and [update_document_archive_file]. *)

From Stdlib Require Import ZArith String List DecimalString Lia.
From stdpp Require Import base option list gmap strings.

Local Open Scope Z_scope.
Local Open Scope string_scope.
Local Open Scope list_scope.

(** ** Exceptions *)

(** The classes the tasks distinguish.  [except Exception] and
    [except OSError] are [isinstance] tests, so the model keeps, for every
    exception, where its class sits in Python's hierarchy. *)
Inductive ExnClass : Type :=
| BaseExceptionOnly (name : string)
    (* a class outside [Exception]: KeyboardInterrupt, SystemExit, ... *)
| OSErrorClass (name : string)
    (* OSError or a subclass: FileNotFoundError, ConnectionRefusedError, ... *)
| ExceptionClass (name : string)
    (* any other class under [Exception]: ValueError, AttributeError, ... *)
| ConsumerError
| SanityCheckFailedException
| DoesNotExist.

Record exn : Type := Exn { exn_class : ExnClass; exn_args : string }.

(** [isinstance(e, Exception)] *)
Definition is_Exception (e : exn) : bool :=
  match exn_class e with
  | BaseExceptionOnly _ => false
  | _ => true
  end.

(** [isinstance(e, OSError)] *)
Definition is_OSError (e : exn) : bool :=
  match exn_class e with
  | OSErrorClass _ => true
  | _ => false
  end.

(** [str(e)] *)
Definition str_exn (e : exn) : string := exn_args e.

Inductive result (A : Type) : Type :=
| Ok (a : A)
| Raise (e : exn).
Arguments Ok {A} a.
Arguments Raise {A} e.

(** ** Logging *)

Inductive Level : Type := DEBUG | INFO | WARNING | ERROR | CRITICAL.

Definition Level_eqb (a b : Level) : bool :=
  match a, b with
  | DEBUG, DEBUG | INFO, INFO | WARNING, WARNING
  | ERROR, ERROR | CRITICAL, CRITICAL => true
  | _, _ => false
  end.

Record LogRecord : Type := {
  lr_name : string;          (* logger name *)
  lr_level : Level;
  lr_msg : string;
  lr_exc_info : option exn   (* set by [logger.exception] *)
}.

(** [logger = logging.getLogger("paperless.tasks")] *)
Definition logger : string := "paperless.tasks".

(** ** Paths *)

(** A resolved [pathlib.Path]: the components of an absolute path. *)
Definition Path : Type := list string.

Fixpoint str_path (p : Path) : string :=
  match p with
  | [] => ""
  | c :: p' => "/" +:+ c +:+ str_path p'
  end.

(** [path.parent]; the root is its own parent. *)
Definition parent (p : Path) : Path := removelast p.

(** ** The relational store *)

(** The fields of a [Document] row that the tasks read or write; the
    primary key is the key of the table. *)
Record Document : Type := {
  mime_type : string;
  checksum : string;
  content : string;
  filename : option string;
  archive_checksum : option string;
  archive_filename : option string
}.

(** An instance in memory: a row with its primary key. *)
Record DocumentInstance : Type := {
  pk : Z;
  row : Document
}.

(** Tag, DocumentType, Correspondent and StoragePath share the matching
    fields; only [matching_algorithm] is read here. *)
Record MatchingModel : Type := {
  name : string;
  matching_algorithm : Z
}.

(** [Tag.MATCH_AUTO], the same constant on the four models. *)
Definition MATCH_AUTO : Z := 6.

Record Database : Type := {
  documents : gmap Z Document;
  tags : gmap Z MatchingModel;
  document_types : gmap Z MatchingModel;
  correspondents : gmap Z MatchingModel;
  storage_paths : gmap Z MatchingModel
}.

Definition set_documents (d : gmap Z Document) (db : Database) : Database :=
  {| documents := d; tags := tags db; document_types := document_types db;
     correspondents := correspondents db; storage_paths := storage_paths db |}.

(** [Model.objects.filter(matching_algorithm=MATCH_AUTO).exists()] *)
Definition exists_match_auto (table : gmap Z MatchingModel) : bool :=
  existsb (fun kv => Z.eqb (matching_algorithm (snd kv)) MATCH_AUTO) (map_to_list table).

(** [Document.objects.filter(id__in=document_ids)], evaluated: the
    instances of the rows whose key is among the ids.  The order of the
    rows is the table's enumeration order. *)
Definition documents_filter_id_in (ids : list Z) (db : Database) : list DocumentInstance :=
  omap (fun kv => if existsb (Z.eqb (fst kv)) ids
                  then Some {| pk := fst kv; row := snd kv |} else None)
       (map_to_list (documents db)).

(** [Document.objects.filter(pk=k).update(archive_checksum=c, content=t,
    archive_filename=f)]: writes the three columns of the matching row, and
    is a no-op when there is none. *)
Definition update_archive_columns (k : Z) (c t f : string) (db : Database) : Database :=
  set_documents
    (alter (fun d => {| mime_type := mime_type d; checksum := checksum d;
                        content := t; filename := filename d;
                        archive_checksum := Some c;
                        archive_filename := Some f |}) k (documents db)) db.

(** ** Sanity-check messages *)

(** Modelled from the spec: the class [SanityCheckMessages] is defined in
    [documents/sanity_checker.py], outside the module embedded here.  The
    spec gives it as an ordered sequence of [{level, text}] messages with
    the aggregate flags [hasError], [hasWarning] and the total count. *)
Record SanityMessage : Type := {
  sm_level : Level;
  sm_message : string
}.

Definition SanityCheckMessages : Type := list SanityMessage.

Definition has_error (messages : SanityCheckMessages) : bool :=
  existsb (fun m => Level_eqb (sm_level m) ERROR) messages.

Definition has_warning (messages : SanityCheckMessages) : bool :=
  existsb (fun m => Level_eqb (sm_level m) WARNING) messages.

(** ** Arguments and payloads *)

Record Settings : Type := {
  CONSUMER_ENABLE_BARCODES : bool;
  MODEL_FILE : string;
  MEDIA_LOCK : string
}.

(** The keyword arguments of [consume_file] after [path]. *)
Record Overrides : Type := {
  override_filename : option string;
  override_title : option string;
  override_correspondent_id : option Z;
  override_document_type_id : option Z;
  override_tag_ids : option (list Z);
  task_id : option string;
  override_created : option string
}.

(** The progress message sent to the [status_updates] group. *)
Record Payload : Type := {
  p_filename : option string;
  p_task_id : option string;
  p_current_progress : Z;
  p_max_progress : Z;
  p_status : string;
  p_message : string
}.

(** [str(n)] for the counter of [enumerate] and for a primary key. *)
Definition str_nat (n : nat) : string := NilZero.string_of_uint (Nat.to_uint n).
Definition str_Z (z : Z) : string := NilZero.string_of_int (Z.to_int z).

(** Python truthiness of an optional string: [None] and [""] are falsy. *)
Definition truthy_str (s : option string) : bool :=
  match s with
  | Some (String _ _) => true
  | _ => false
  end.

(** [document.archive_filename = f], on the instance in memory. *)
Definition set_archive_filename (d : DocumentInstance) (f : string) : DocumentInstance :=
  {| pk := pk d;
     row := {| mime_type := mime_type (row d); checksum := checksum (row d);
               content := content (row d); filename := filename (row d);
               archive_checksum := archive_checksum (row d);
               archive_filename := Some f |} |}.

(** [enumerate(l)] *)
Definition enumerate {A : Type} (l : list A) : list (nat * A) :=
  combine (seq 0 (length l)) l.

(** ** Collaborators, events and the state of a run *)

Section Tasks.

(** [Ext] is the state of everything outside the relational store and the
    log: the file system, the index, the broker, the persisted model.
    [Obj] is the type of the opaque objects the tasks only pass around: a
    parser class, a parser, a classifier, an index, an index writer. *)
Context {Ext Obj : Type}.

(** A collaborator is a function of the outside state; it returns or
    raises, and leaves a new outside state either way. *)
Definition ext_fun (A : Type) : Type := Ext -> result A * Ext.

(** A collaborator that also reads and writes the relational store (the
    consumer, the receivers of a signal). *)
Definition db_fun (A : Type) : Type := Database -> Ext -> result A * Database * Ext.

(** One call of a collaborator: its arguments and its outcome. *)
Inductive Event : Type :=
(* pathlib, os, shutil, builtins, uuid, filelock *)
| E_resolve (path : string) (r : result Path)
| E_unlink (p : Path) (r : result unit)
| E_move (src : option Path) (dst : Path) (r : result unit)
| E_open_read (p : option Path) (r : result string)
| E_uuid4 (r : result string)
| E_FileLock_acquire (lock : string) (r : result unit)
| E_FileLock_release (lock : string) (r : result unit)
(* documents.barcodes *)
| E_get_file_mime_type (p : Path) (r : result string)
| E_supported_file_type (mime : string) (r : result bool)
| E_convert_from_tiff_to_pdf (p : Path) (r : result Path)
| E_scan_file_for_separating_barcodes (f : Path) (r : result (list nat))
| E_separate_pages (f : Path) (separators : list nat) (r : result (list Path))
| E_save_to_dir (document : Path) (newname : option string) (target_dir : Path)
                (r : result unit)
(* channels *)
| E_group_send (group : string) (payload : Payload) (r : result unit)
(* documents.consumer *)
| E_try_consume_file (p : Path) (o : Overrides) (r : result (option DocumentInstance))
(* documents.sanity_checker *)
| E_check_sanity (r : result SanityCheckMessages)
(* documents.classifier *)
| E_load_classifier (r : result (option Obj))
| E_DocumentClassifier (r : result Obj)
| E_train (classifier : Obj) (r : result bool)
| E_save (classifier : Obj) (r : result unit)
(* documents.index, whoosh, django signals *)
| E_open_index (r : result Obj)
| E_post_save_send (instance : DocumentInstance) (r : result DocumentInstance)
| E_AsyncWriter (ix : Obj) (r : result Obj)
| E_commit (writer : Obj) (r : result unit)
| E_cancel (writer : Obj) (r : result unit)
| E_update_document (writer : Obj) (d : DocumentInstance) (r : result unit)
| E_open_index_writer_enter (r : result Obj)
| E_open_index_writer_exit (writer : Obj) (raised : option exn) (r : result bool)
(* documents.parsers, documents.file_handling *)
| E_get_parser_class_for_mime_type (mime : string) (r : result (option Obj))
| E_parser_new (parser_class : Obj) (logging_group : string) (r : result Obj)
| E_parse (parser : Obj) (source : Path) (mime : string) (file_name : string)
          (r : result unit)
| E_get_thumbnail (parser : Obj) (source : Path) (mime : string) (file_name : string)
                  (r : result Path)
| E_get_archive_path (parser : Obj) (r : result (option Path))
| E_get_text (parser : Obj) (r : result string)
| E_cleanup (parser : Obj) (r : result unit)
| E_generate_unique_filename (d : DocumentInstance) (archive : bool) (r : result string)
| E_create_source_path_directory (p : Path) (r : result unit).

(** The exception of a call that raised. *)
Definition raised_by {A : Type} (r : result A) : option exn :=
  match r with
  | Ok _ => None
  | Raise e => Some e
  end.

Definition raised (ev : Event) : option exn :=
  match ev with
  | E_resolve _ r => raised_by r
  | E_unlink _ r => raised_by r
  | E_move _ _ r => raised_by r
  | E_open_read _ r => raised_by r
  | E_uuid4 r => raised_by r
  | E_FileLock_acquire _ r => raised_by r
  | E_FileLock_release _ r => raised_by r
  | E_get_file_mime_type _ r => raised_by r
  | E_supported_file_type _ r => raised_by r
  | E_convert_from_tiff_to_pdf _ r => raised_by r
  | E_scan_file_for_separating_barcodes _ r => raised_by r
  | E_separate_pages _ _ r => raised_by r
  | E_save_to_dir _ _ _ r => raised_by r
  | E_group_send _ _ r => raised_by r
  | E_try_consume_file _ _ r => raised_by r
  | E_check_sanity r => raised_by r
  | E_load_classifier r => raised_by r
  | E_DocumentClassifier r => raised_by r
  | E_train _ r => raised_by r
  | E_save _ r => raised_by r
  | E_open_index r => raised_by r
  | E_post_save_send _ r => raised_by r
  | E_AsyncWriter _ r => raised_by r
  | E_commit _ r => raised_by r
  | E_cancel _ r => raised_by r
  | E_update_document _ _ r => raised_by r
  | E_open_index_writer_enter r => raised_by r
  | E_open_index_writer_exit _ _ r => raised_by r
  | E_get_parser_class_for_mime_type _ r => raised_by r
  | E_parser_new _ _ r => raised_by r
  | E_parse _ _ _ _ r => raised_by r
  | E_get_thumbnail _ _ _ _ r => raised_by r
  | E_get_archive_path _ r => raised_by r
  | E_get_text _ r => raised_by r
  | E_cleanup _ r => raised_by r
  | E_generate_unique_filename _ _ r => raised_by r
  | E_create_source_path_directory _ r => raised_by r
  end.

Record Env : Type := {
  settings : Settings;
  (* pathlib, os, shutil, builtins, hashlib, uuid, filelock *)
  Path_resolve : string -> ext_fun Path;
  os_unlink : Path -> ext_fun unit;
  shutil_move : option Path -> Path -> ext_fun unit;
  open_read : option Path -> ext_fun string;
  md5_hexdigest : string -> string;
  uuid4 : ext_fun string;
  FileLock_acquire : string -> ext_fun unit;
  FileLock_release : string -> ext_fun unit;
  (* documents.barcodes *)
  get_file_mime_type : Path -> ext_fun string;
  supported_file_type : string -> ext_fun bool;
  convert_from_tiff_to_pdf : Path -> ext_fun Path;
  scan_file_for_separating_barcodes : Path -> ext_fun (list nat);
  separate_pages : Path -> list nat -> ext_fun (list Path);
  save_to_dir : Path -> option string -> Path -> ext_fun unit;
  (* channels: async_to_sync(get_channel_layer().group_send) *)
  group_send : string -> Payload -> ext_fun unit;
  (* documents.consumer: Consumer().try_consume_file *)
  try_consume_file : Path -> Overrides -> db_fun (option DocumentInstance);
  (* documents.sanity_checker *)
  check_sanity : ext_fun SanityCheckMessages;
  sanity_logger : string;
  (* documents.classifier *)
  load_classifier : ext_fun (option Obj);
  DocumentClassifier : ext_fun Obj;
  train : Obj -> ext_fun bool;
  save : Obj -> ext_fun unit;
  (* documents.index, whoosh, django signals *)
  open_index : ext_fun Obj;
  post_save_send : DocumentInstance -> db_fun DocumentInstance;
  AsyncWriter : Obj -> ext_fun Obj;
  commit : Obj -> ext_fun unit;
  cancel : Obj -> ext_fun unit;
  update_document : Obj -> DocumentInstance -> ext_fun unit;
  open_index_writer_enter : ext_fun Obj;
  open_index_writer_exit : Obj -> option exn -> ext_fun bool;
  (* documents.parsers, documents.file_handling *)
  get_parser_class_for_mime_type : string -> ext_fun (option Obj);
  parser_new : Obj -> string -> ext_fun Obj;
  parse : Obj -> Path -> string -> string -> ext_fun unit;
  get_thumbnail : Obj -> Path -> string -> string -> ext_fun Path;
  get_archive_path : Obj -> ext_fun (option Path);
  get_text : Obj -> ext_fun string;
  cleanup : Obj -> ext_fun unit;
  generate_unique_filename : DocumentInstance -> bool -> Database -> ext_fun string;
  create_source_path_directory : Path -> ext_fun unit;
  (* documents.models.Document: properties of an instance *)
  str_document : DocumentInstance -> string;
  source_path : DocumentInstance -> Path;
  archive_path : DocumentInstance -> Path;
  thumbnail_path : DocumentInstance -> Path;
  get_public_filename : DocumentInstance -> string
}.

(** The state a task runs in.  [local_document] is the [Document] instance
    bound to the local variable [document] of
    [update_document_archive_file]: the task assigns to one of its
    attributes in place, and the exception handler formats the instance as
    it is at that moment. *)
Record World : Type := {
  db : Database;
  log : list LogRecord;
  ext : Ext;
  local_document : option DocumentInstance
}.

(** A task step: from a state to an outcome, a state, and the calls made. *)
Definition M (A : Type) : Type := World -> result A * World * list Event.

#[global] Instance M_ret : MRet M := fun A a w => (Ok a, w, []).

#[global] Instance M_bind : MBind M := fun A B k m w =>
  match m w with
  | (Ok a, w1, t1) =>
      match k a w1 with
      | (r, w2, t2) => (r, w2, t1 ++ t2)
      end
  | (Raise e, w1, t1) => (Raise e, w1, t1)
  end.

Definition raise {A : Type} (e : exn) : M A := fun w => (Raise e, w, []).

Definition get_db : M Database := fun w => (Ok (db w), w, []).

Definition modify_db (f : Database -> Database) : M unit := fun w =>
  (Ok tt, {| db := f (db w); log := log w; ext := ext w;
             local_document := local_document w |}, []).

Definition set_local_document (d : DocumentInstance) : M unit := fun w =>
  (Ok tt, {| db := db w; log := log w; ext := ext w; local_document := Some d |}, []).

Definition emit (rec : LogRecord) : M unit := fun w =>
  (Ok tt, {| db := db w; log := log w ++ [rec]; ext := ext w;
             local_document := local_document w |}, []).

(** [logger.debug], [logger.info], [logger.warning], [logger.error] *)
Definition logger_log (lvl : Level) (msg : string) : M unit :=
  emit {| lr_name := logger; lr_level := lvl; lr_msg := msg; lr_exc_info := None |}.

(** [logger.exception(msg)] inside a handler of [e] *)
Definition logger_exception (msg : string) (e : exn) : M unit :=
  emit {| lr_name := logger; lr_level := ERROR; lr_msg := msg; lr_exc_info := Some e |}.

(** Calling a collaborator: the outside state moves, the call is recorded. *)
Definition ext_call {A : Type} (f : ext_fun A) (ev : result A -> Event) : M A := fun w =>
  match f (ext w) with
  | (r, x) => (r, {| db := db w; log := log w; ext := x;
                     local_document := local_document w |}, [ev r])
  end.

Definition db_call {A : Type} (f : db_fun A) (ev : result A -> Event) : M A := fun w =>
  match f (db w) (ext w) with
  | (r, d, x) => (r, {| db := d; log := log w; ext := x;
                        local_document := local_document w |}, [ev r])
  end.

(** [try: body / except C as e: handler], with [handles e] the test
    [isinstance(e, C)]. *)
Definition try_except {A : Type} (body : M A) (handles : exn -> bool)
    (handler : exn -> M A) : M A := fun w =>
  match body w with
  | (Ok a, w1, t1) => (Ok a, w1, t1)
  | (Raise e, w1, t1) =>
      if handles e then
        match handler e w1 with
        | (r, w2, t2) => (r, w2, t1 ++ t2)
        end
      else (Raise e, w1, t1)
  end.

(** [try: body / finally: final].  The final block runs on both exits; an
    exception of its own replaces the pending outcome. *)
Definition try_finally {A : Type} (body : M A) (final : M unit) : M A := fun w =>
  match body w with
  | (r, w1, t1) =>
      match final w1 with
      | (Ok _, w2, t2) => (r, w2, t1 ++ t2)
      | (Raise e, w2, t2) => (Raise e, w2, t1 ++ t2)
      end
  end.

(** [with transaction.atomic(): body], outermost: the tables are restored
    when the block is left by an exception, which then goes on. *)
Definition atomic {A : Type} (body : M A) : M A := fun w =>
  match body w with
  | (Ok a, w1, t1) => (Ok a, w1, t1)
  | (Raise e, w1, t1) =>
      (Raise e, {| db := db w; log := log w1; ext := ext w1;
                   local_document := local_document w1 |}, t1)
  end.

(** A [with] statement over a context manager that may take the exception
    over: [exit_ h (Some e)] returning [true] suppresses [e]. *)
Definition with_ {H : Type} (enter : M H) (exit_ : H -> option exn -> M bool)
    (body : H -> M unit) : M unit := fun w =>
  match enter w with
  | (Raise e, w1, t1) => (Raise e, w1, t1)
  | (Ok h, w1, t1) =>
      match body h w1 with
      | (Ok _, w2, t2) =>
          match exit_ h None w2 with
          | (Ok _, w3, t3) => (Ok tt, w3, t1 ++ t2 ++ t3)
          | (Raise e', w3, t3) => (Raise e', w3, t1 ++ t2 ++ t3)
          end
      | (Raise e, w2, t2) =>
          match exit_ h (Some e) w2 with
          | (Ok true, w3, t3) => (Ok tt, w3, t1 ++ t2 ++ t3)
          | (Ok false, w3, t3) => (Raise e, w3, t1 ++ t2 ++ t3)
          | (Raise e', w3, t3) => (Raise e', w3, t1 ++ t2 ++ t3)
          end
      end
  end.

(** [for x in l: f x] *)
Fixpoint for_each {A : Type} (f : A -> M unit) (l : list A) : M unit :=
  match l with
  | [] => mret tt
  | a :: l' => f a ;; for_each f l'
  end.

(** A loop whose body may change the object it is given: the list of the
    objects as the loop leaves them. *)
Fixpoint for_each_obj {A : Type} (f : A -> M A) (l : list A) : M (list A) :=
  match l with
  | [] => mret []
  | a :: l' => a' ← f a; l'' ← for_each_obj f l'; mret (a' :: l'')
  end.

Variable env : Env.

(** ** The tasks *)

(** Modelled from the spec: [SanityCheckMessages.log_messages] is defined
    in [documents/sanity_checker.py], outside the module embedded here.
    The spec has it log the full message set, each message at its level. *)
Definition log_messages (messages : SanityCheckMessages) : M unit :=
  for_each (fun m => emit {| lr_name := sanity_logger env; lr_level := sm_level m;
                             lr_msg := sm_message m; lr_exc_info := None |})
           messages.

(** [__exit__] of a whoosh writer: cancel when the block raised, commit
    otherwise; the exception is not taken over. *)
Definition AsyncWriter_exit (writer : Obj) (raised : option exn) : M bool :=
  match raised with
  | Some _ => ext_call (cancel env writer) (E_cancel writer) ;; mret false
  | None => ext_call (commit env writer) (E_commit writer) ;; mret false
  end.

(** [train_classifier] *)
Definition train_classifier : M unit :=
  d ← get_db;
  if negb (exists_match_auto (tags d))
     && negb (exists_match_auto (document_types d))
     && negb (exists_match_auto (correspondents d))
     && negb (exists_match_auto (storage_paths d))
  then mret tt
  else
    loaded ← ext_call (load_classifier env) E_load_classifier;
    classifier ← match loaded with
                 | Some c => mret c
                 | None => ext_call (DocumentClassifier env) E_DocumentClassifier
                 end;
    try_except
      (changed ← ext_call (train env classifier) (E_train classifier);
       if (changed : bool) then
         logger_log INFO ("Saving updated classifier model to "
                          +:+ MODEL_FILE (settings env) +:+ "...") ;;
         ext_call (save env classifier) (E_save classifier)
       else
         logger_log DEBUG "Training data unchanged." : M unit)
      is_Exception
      (fun e => logger_log WARNING ("Classifier error: " +:+ str_exn e)).

(** The name [save_to_dir] is given for the [n]-th part. *)
Definition newname (o : Overrides) (n : nat) : option string :=
  if truthy_str (override_filename o)
  then Some (str_nat n +:+ "_" +:+ default "" (override_filename o))
  else None.

Definition split_payload (o : Overrides) : Payload :=
  {| p_filename := override_filename o;
     p_task_id := task_id o;
     p_current_progress := 100;
     p_max_progress := 100;
     p_status := "SUCCESS";
     p_message := "finished" |}.

(** The loop of lines 128 to 139: every part goes to the directory of the
    original. *)
Definition save_parts (path : Path) (o : Overrides) (document_list : list Path) : M unit :=
  for_each
    (fun nd => ext_call (save_to_dir env (snd nd) (newname o (fst nd)) (parent path))
                        (E_save_to_dir (snd nd) (newname o (fst nd)) (parent path)))
    (enumerate document_list).

(** The barcode block of [consume_file], lines 101 to 173: [Some s] when
    the block returns [s] from the task, [None] when control falls through
    to the consumption. *)
Definition consume_file_barcodes (path : Path) (o : Overrides) : M (option string) :=
  if CONSUMER_ENABLE_BARCODES (settings env) then
    mime ← ext_call (get_file_mime_type env path) (E_get_file_mime_type path);
    supported ← ext_call (supported_file_type env mime) (E_supported_file_type mime);
    if negb (supported : bool) then
      logger_log WARNING ("Unsupported file format for barcode reader: " +:+ mime) ;;
      mret None
    else
      file_to_process ←
        (if String.eqb mime "image/tiff"
         then ext_call (convert_from_tiff_to_pdf env path) (E_convert_from_tiff_to_pdf path)
         else mret path);
      separators ← ext_call (scan_file_for_separating_barcodes env file_to_process)
                            (E_scan_file_for_separating_barcodes file_to_process);
      document_list ←
        match separators with
        | [] => mret ([] : list Path)
        | _ :: _ =>
            logger_log DEBUG ("Pages with separators found in: " +:+ str_path path) ;;
            ext_call (separate_pages env file_to_process separators)
                     (E_separate_pages file_to_process separators)
        end;
      match document_list with
      | [] => mret None
      | _ :: _ =>
          save_parts path o document_list ;;
          (if String.eqb mime "image/tiff" then
             logger_log DEBUG ("Deleting file " +:+ str_path file_to_process) ;;
             ext_call (os_unlink env file_to_process) (E_unlink file_to_process)
           else mret tt) ;;
          logger_log DEBUG ("Deleting file " +:+ str_path path) ;;
          ext_call (os_unlink env path) (E_unlink path) ;;
          try_except
            (ext_call (group_send env "status_updates" (split_payload o))
                      (E_group_send "status_updates" (split_payload o)))
            is_OSError
            (fun e =>
               logger_log WARNING "OSError. It could be, the broker cannot be reached." ;;
               logger_log WARNING (str_exn e)) ;;
          mret (Some "File successfully split")
      end
  else mret None.

(** [consume_file] *)
Definition consume_file (path : string) (o : Overrides) : M string :=
  path ← ext_call (Path_resolve env path) (E_resolve path);
  returned ← consume_file_barcodes path o;
  match returned with
  | Some s => mret s
  | None =>
      document ← db_call (try_consume_file env path o) (E_try_consume_file path o);
      match document with
      | Some d => mret ("Success. New document id " +:+ str_Z (pk d) +:+ " created")
      | None =>
          raise (Exn ConsumerError
                     "Unknown error: Returned document was null, but no error message was given.")
      end
  end.

(** [sanity_check] *)
Definition sanity_check : M string :=
  messages ← ext_call (check_sanity env) E_check_sanity;
  log_messages messages ;;
  if has_error messages then
    raise (Exn SanityCheckFailedException "Sanity check failed with errors. See log.")
  else if has_warning messages then
    mret "Sanity check exited with warnings. See log."
  else if (0 <? length messages)%nat then
    mret "Sanity check exited with infos. See log."
  else
    mret "No issues detected.".

(** [for doc in documents: post_save.send(Document, instance=doc,
    created=False)]: the receivers may write to the store and to the
    instance they are handed. *)
Definition notify_all (documents : list DocumentInstance) : M (list DocumentInstance) :=
  for_each_obj (fun doc => db_call (post_save_send env doc) (E_post_save_send doc))
               documents.

(** [for doc in documents: index.update_document(writer, doc)] *)
Definition update_all (writer : Obj) (documents : list DocumentInstance) : M unit :=
  for_each (fun doc => ext_call (update_document env writer doc)
                                (E_update_document writer doc))
           documents.

(** [bulk_update_documents].  The queryset is lazy: it is evaluated by the
    first loop and the instances are kept, so the second loop sees the
    same objects, as the receivers of the signal left them. *)
Definition bulk_update_documents (document_ids : list Z) : M unit :=
  ix ← ext_call (open_index env) E_open_index;
  d ← get_db;
  let documents := documents_filter_id_in document_ids d in
  documents ← notify_all documents;
  with_ (ext_call (AsyncWriter env ix) (E_AsyncWriter ix)) AsyncWriter_exit
        (fun writer => update_all writer documents).

(** The block under [with transaction.atomic()], lines 257 to 275. *)
Definition archive_atomic_block (parser : Obj) (document : DocumentInstance)
    (thumbnail : Path) : M DocumentInstance :=
  archive ← ext_call (get_archive_path env parser) (E_get_archive_path parser);
  data ← ext_call (open_read env archive) (E_open_read archive);
  let checksum := md5_hexdigest env data in
  d ← get_db;
  unique ← ext_call (generate_unique_filename env document true d)
                    (E_generate_unique_filename document true);
  let document := set_archive_filename document unique in
  set_local_document document ;;
  text ← ext_call (get_text env parser) (E_get_text parser);
  modify_db (update_archive_columns (pk document) checksum text unique) ;;
  ext_call (FileLock_acquire env (MEDIA_LOCK (settings env)))
           (E_FileLock_acquire (MEDIA_LOCK (settings env))) ;;
  try_finally
    (ext_call (create_source_path_directory env (archive_path env document))
              (E_create_source_path_directory (archive_path env document)) ;;
     archive ← ext_call (get_archive_path env parser) (E_get_archive_path parser);
     ext_call (shutil_move env archive (archive_path env document))
              (E_move archive (archive_path env document)) ;;
     ext_call (shutil_move env (Some thumbnail) (thumbnail_path env document))
              (E_move (Some thumbnail) (thumbnail_path env document)))
    (ext_call (FileLock_release env (MEDIA_LOCK (settings env)))
              (E_FileLock_release (MEDIA_LOCK (settings env)))) ;;
  mret document.

(** The body of the [try], lines 247 to 278. *)
Definition archive_try_body (parser : Obj) (document : DocumentInstance) : M unit :=
  ext_call (parse env parser (source_path env document) (mime_type (row document))
                  (get_public_filename env document))
           (E_parse parser (source_path env document) (mime_type (row document))
                    (get_public_filename env document)) ;;
  thumbnail ← ext_call (get_thumbnail env parser (source_path env document)
                                      (mime_type (row document))
                                      (get_public_filename env document))
                       (E_get_thumbnail parser (source_path env document)
                                        (mime_type (row document))
                                        (get_public_filename env document));
  archive ← ext_call (get_archive_path env parser) (E_get_archive_path parser);
  match archive with
  | None => mret tt
  | Some _ =>
      document ← atomic (archive_atomic_block parser document thumbnail);
      with_ (ext_call (open_index_writer_enter env) E_open_index_writer_enter)
            (fun writer raised =>
               ext_call (open_index_writer_exit env writer raised)
                        (E_open_index_writer_exit writer raised))
            (fun writer => ext_call (update_document env writer document)
                                    (E_update_document writer document))
  end.

(** The handler of [except Exception], lines 280 to 283: it formats the
    instance bound to [document] as it is when the exception arrives. *)
Definition archive_handler (document : DocumentInstance) (document_id : Z) (e : exn)
    : M unit := fun w =>
  logger_exception
    ("Error while parsing document "
     +:+ str_document env (default document (local_document w))
     +:+ " (ID: " +:+ str_Z document_id +:+ ")") e w.

(** [update_document_archive_file] *)
Definition update_document_archive_file (document_id : Z) : M unit :=
  d ← get_db;
  match documents d !! document_id with
  | None => raise (Exn DoesNotExist "Document matching query does not exist.")
  | Some r =>
      let document := {| pk := document_id; row := r |} in
      set_local_document document ;;
      let mime := mime_type r in
      parser_class ← ext_call (get_parser_class_for_mime_type env mime)
                              (E_get_parser_class_for_mime_type mime);
      match parser_class with
      | None =>
          logger_log ERROR ("No parser found for mime type " +:+ mime
                            +:+ ", cannot archive document " +:+ str_document env document
                            +:+ " (ID: " +:+ str_Z document_id +:+ ")")
      | Some cls =>
          logging_group ← ext_call (uuid4 env) E_uuid4;
          parser ← ext_call (parser_new env cls logging_group)
                            (E_parser_new cls logging_group);
          try_finally
            (try_except (archive_try_body parser document)
                        is_Exception
                        (archive_handler document document_id))
            (ext_call (cleanup env parser) (E_cleanup parser))
      end
  end.

End Tasks.

(** ** Observing a run *)

Section Observations.

Context {Ext Obj : Type}.

(** The three parts of what a task step gives back. *)
Definition outcome {A : Type} (x : result A * @World Ext * list (@Event Obj)) : result A :=
  fst (fst x).

Definition final {A : Type} (x : result A * @World Ext * list (@Event Obj)) : @World Ext :=
  snd (fst x).

Definition trace {A : Type} (x : result A * @World Ext * list (@Event Obj))
  : list (@Event Obj) := snd x.

(** No call raised. *)
Definition returned (ev : @Event Obj) : Prop := raised ev = None.

Definition is_group_send (ev : @Event Obj) : bool :=
  match ev with
  | E_group_send _ _ _ => true
  | _ => false
  end.

(** The call returned, or it is the publish and it raised an [OSError]. *)
Definition quiet (ev : @Event Obj) : Prop :=
  match raised ev with
  | None => True
  | Some e => is_group_send ev = true /\ is_OSError e = true
  end.

(** The message set holds a message of the level. *)
Definition any_level (lvl : Level) (messages : SanityCheckMessages) : Prop :=
  exists m, In m messages /\ sm_level m = lvl.

(** No row of the four matching models has the automatic algorithm. *)
Definition no_automatic_matching (d : Database) : Prop :=
  (forall k t, tags d !! k = Some t -> matching_algorithm t <> MATCH_AUTO) /\
  (forall k t, document_types d !! k = Some t -> matching_algorithm t <> MATCH_AUTO) /\
  (forall k t, correspondents d !! k = Some t -> matching_algorithm t <> MATCH_AUTO) /\
  (forall k t, storage_paths d !! k = Some t -> matching_algorithm t <> MATCH_AUTO).

(** The events of a completed [save_parts]: the [n]-th part, under the
    name made from [n], into the directory of the original. *)
Definition saved (path : Path) (o : Overrides) (document_list : list Path)
  : list (@Event Obj) :=
  imap (fun n document => E_save_to_dir document (newname o n) (parent path) (Ok tt))
       document_list.

Definition is_save_to_dir (ev : @Event Obj) : Prop :=
  match ev with
  | E_save_to_dir _ _ _ _ => True
  | _ => False
  end.

Definition is_post_save_send (ev : @Event Obj) : Prop :=
  match ev with
  | E_post_save_send _ _ => True
  | _ => False
  end.

Definition is_update_document (ev : @Event Obj) : Prop :=
  match ev with
  | E_update_document _ _ _ => True
  | _ => False
  end.

(** The events of a completed [notify_all]: one signal per instance, each
    returning the instance as the receivers left it. *)
Definition notified (documents documents' : list DocumentInstance) : list (@Event Obj) :=
  zip_with (fun d d' => E_post_save_send d (Ok d')) documents documents'.

(** The events of a completed [update_all]. *)
Definition indexed (writer : Obj) (documents : list DocumentInstance) : list (@Event Obj) :=
  map (fun d => E_update_document writer d (Ok tt)) documents.

(** The shape of a writer session in a trace: the writer is made, the
    documents are updated, the session is closed (unless making the
    writer failed). *)
Definition writer_session (session : list (@Event Obj)) : Prop :=
  exists ix rw updates closing,
    session = E_AsyncWriter ix rw :: updates ++ closing /\
    Forall is_update_document updates /\
    (closing = [] \/
     exists writer rc, closing = [E_commit writer rc] \/ closing = [E_cancel writer rc]).


End Observations.

(** ** A scripted environment

    A small world to run the tasks in: the outside state is the list of
    the files on disk, the collaborators follow a script.  It serves to
    run the tasks on concrete inputs. *)

Record Script : Type := {
  sc_barcodes : bool;                    (* CONSUMER_ENABLE_BARCODES *)
  sc_mime : string;                      (* what the MIME sniffing reports *)
  sc_separators : list nat;              (* pages with a separator barcode *)
  sc_parts : list Path;                  (* what the separation writes *)
  sc_publish : result unit;              (* outcome of the publish *)
  sc_messages : SanityCheckMessages;     (* what the sanity checker finds *)
  sc_parser : option nat;                (* the parser class registered, if any *)
  sc_parse : result unit;                (* outcome of [parser.parse] *)
  sc_thumbnail_written : bool            (* does the thumbnail file exist *)
}.

Definition Path_eq_dec : forall p q : Path, {p = q} + {p <> q} :=
  List.list_eq_dec string_dec.

Definition on_disk (p : Path) (fs : list Path) : bool :=
  if in_dec Path_eq_dec p fs then true else false.

Definition FileNotFoundError (p : Path) : exn :=
  Exn (OSErrorClass "FileNotFoundError") ("No such file or directory: " +:+ str_path p).

Definition TypeError : exn :=
  Exn (ExceptionClass "TypeError")
      "expected str, bytes or os.PathLike object, not NoneType".

Definition scratch_pdf : Path := ["tmp"; "paperless"; "converted.pdf"].
Definition scratch_archive : Path := ["tmp"; "paperless"; "archive.pdf"].
Definition scratch_thumbnail : Path := ["tmp"; "paperless"; "thumbnail.webp"].

Definition scripted_env (sc : Script) : @Env (list Path) nat := {|
  settings := {| CONSUMER_ENABLE_BARCODES := sc_barcodes sc;
                 MODEL_FILE := "/data/classification_model.pickle";
                 MEDIA_LOCK := "/media/media.lock" |};
  Path_resolve := fun s fs => (Ok ["consume"; s], fs);
  os_unlink := fun p fs =>
    if on_disk p fs then (Ok tt, List.remove Path_eq_dec p fs)
    else (Raise (FileNotFoundError p), fs);
  shutil_move := fun src dst fs =>
    match src with
    | None => (Raise TypeError, fs)
    | Some s => if on_disk s fs then (Ok tt, dst :: List.remove Path_eq_dec s fs)
                else (Raise (FileNotFoundError s), fs)
    end;
  open_read := fun p fs =>
    match p with
    | None => (Raise TypeError, fs)
    | Some q => if on_disk q fs then (Ok "%PDF-1.7", fs)
                else (Raise (FileNotFoundError q), fs)
    end;
  md5_hexdigest := fun _ => "5f2b51ca2fdc5baa31ec02e002f69aec";
  uuid4 := fun fs => (Ok "16fd2706-8baf-433b-82eb-8c7fada847da", fs);
  FileLock_acquire := fun _ fs => (Ok tt, fs);
  FileLock_release := fun _ fs => (Ok tt, fs);
  get_file_mime_type := fun _ fs => (Ok (sc_mime sc), fs);
  supported_file_type := fun mime fs =>
    (Ok (String.eqb mime "application/pdf" || String.eqb mime "image/tiff"), fs);
  convert_from_tiff_to_pdf := fun _ fs => (Ok scratch_pdf, scratch_pdf :: fs);
  scan_file_for_separating_barcodes := fun _ fs => (Ok (sc_separators sc), fs);
  separate_pages := fun _ _ fs => (Ok (sc_parts sc), sc_parts sc ++ fs);
  save_to_dir := fun document newname target_dir fs =>
    if on_disk document fs
    then (Ok tt, (target_dir ++ [default (List.last document "") newname]) :: fs)
    else (Raise (FileNotFoundError document), fs);
  group_send := fun _ _ fs => (sc_publish sc, fs);
  try_consume_file := fun p _ d fs =>
    let new := {| mime_type := sc_mime sc; checksum := "d41d8cd98f00b204e9800998ecf8427e";
                  content := ""; filename := Some "0000001.pdf";
                  archive_checksum := None; archive_filename := None |} in
    (Ok (Some {| pk := 1; row := new |}),
     set_documents (<[1%Z := new]> (documents d)) d,
     ["media"; "originals"; "0000001.pdf"] :: List.remove Path_eq_dec p fs);
  check_sanity := fun fs => (Ok (sc_messages sc), fs);
  sanity_logger := "paperless.sanity_checker";
  load_classifier := fun fs => (Ok None, fs);
  DocumentClassifier := fun fs => (Ok 0%nat, fs);
  train := fun _ fs => (Ok true, fs);
  save := fun _ fs => (Ok tt, fs);
  open_index := fun fs => (Ok 1%nat, fs);
  post_save_send := fun i d fs => (Ok i, d, fs);
  AsyncWriter := fun _ fs => (Ok 2%nat, fs);
  commit := fun _ fs => (Ok tt, fs);
  cancel := fun _ fs => (Ok tt, fs);
  update_document := fun _ _ fs => (Ok tt, fs);
  open_index_writer_enter := fun fs => (Ok 2%nat, fs);
  open_index_writer_exit := fun _ _ fs => (Ok false, fs);
  get_parser_class_for_mime_type := fun _ fs => (Ok (sc_parser sc), fs);
  parser_new := fun _ _ fs => (Ok 3%nat, fs);
  parse := fun _ _ _ _ fs =>
    match sc_parse sc with
    | Ok _ => (Ok tt, scratch_archive :: fs)
    | Raise e => (Raise e, fs)
    end;
  get_thumbnail := fun _ _ _ _ fs =>
    (Ok scratch_thumbnail,
     if sc_thumbnail_written sc then scratch_thumbnail :: fs else fs);
  get_archive_path := fun _ fs =>
    (Ok (if on_disk scratch_archive fs then Some scratch_archive else None), fs);
  get_text := fun _ fs => (Ok "Invoice 2022-03", fs);
  cleanup := fun _ fs =>
    (Ok tt, List.remove Path_eq_dec scratch_thumbnail (List.remove Path_eq_dec scratch_archive fs));
  generate_unique_filename := fun _ _ _ fs => (Ok "0000001.pdf", fs);
  create_source_path_directory := fun _ fs => (Ok tt, fs);
  str_document := fun i => "2022-03-01 Invoice";
  source_path := fun i => ["media"; "originals"; default "" (filename (row i))];
  archive_path := fun i => ["media"; "archive"; default "" (archive_filename (row i))];
  thumbnail_path := fun i => ["media"; "thumbnails"; "0000001.webp"];
  get_public_filename := fun i => "2022-03-01 Invoice.pdf"
|}.

Definition invoice : Document :=
  {| mime_type := "application/pdf"; checksum := "d41d8cd98f00b204e9800998ecf8427e";
     content := ""; filename := Some "0000001.pdf";
     archive_checksum := None; archive_filename := None |}.

Definition letter : Document :=
  {| mime_type := "image/tiff"; checksum := "9e107d9d372bb6826bd81d3542a419d6";
     content := "Dear Sir or Madam"; filename := Some "0000002.tiff";
     archive_checksum := Some "e4d909c290d0fb1ca068ffaddf22cbd0";
     archive_filename := Some "0000002.pdf" |}.

Definition receipt : Document :=
  {| mime_type := "text/plain"; checksum := "0cc175b9c0f1b6a831c399e269772661";
     content := "Total 12.50"; filename := Some "0000003.txt";
     archive_checksum := None; archive_filename := None |}.

Definition demo_db : Database :=
  {| documents := <[ 1%Z := invoice ]> (<[ 2%Z := letter ]> ({[ 3%Z := receipt ]}));
     tags := {[ 1%Z := {| name := "inbox"; matching_algorithm := 1 |} ]};
     document_types := ∅;
     correspondents := {[ 4%Z := {| name := "ACME"; matching_algorithm := 3 |} ]};
     storage_paths := ∅ |}.

Definition demo_world (fs : list Path) : @World (list Path) :=
  {| db := demo_db; log := []; ext := fs; local_document := None |}.

Definition no_overrides : Overrides :=
  {| override_filename := None; override_title := None;
     override_correspondent_id := None; override_document_type_id := None;
     override_tag_ids := None; task_id := Some "4a1b"; override_created := None |}.

(** A two-page split of a TIFF scan, the publish going through. *)
Definition split_script : Script :=
  {| sc_barcodes := true; sc_mime := "image/tiff"; sc_separators := [1%nat];
     sc_parts := [["tmp"; "paperless"; "scan_0.pdf"]; ["tmp"; "paperless"; "scan_1.pdf"]];
     sc_publish := Ok tt; sc_messages := []; sc_parser := Some 0%nat;
     sc_parse := Ok tt; sc_thumbnail_written := true |}.

Definition with_publish (r : result unit) (sc : Script) : Script :=
  {| sc_barcodes := sc_barcodes sc; sc_mime := sc_mime sc;
     sc_separators := sc_separators sc; sc_parts := sc_parts sc;
     sc_publish := r; sc_messages := sc_messages sc; sc_parser := sc_parser sc;
     sc_parse := sc_parse sc; sc_thumbnail_written := sc_thumbnail_written sc |}.

Definition with_parts (seps : list nat) (parts : list Path) (sc : Script) : Script :=
  {| sc_barcodes := sc_barcodes sc; sc_mime := sc_mime sc;
     sc_separators := seps; sc_parts := parts;
     sc_publish := sc_publish sc; sc_messages := sc_messages sc;
     sc_parser := sc_parser sc; sc_parse := sc_parse sc;
     sc_thumbnail_written := sc_thumbnail_written sc |}.

Definition with_messages (ms : SanityCheckMessages) (sc : Script) : Script :=
  {| sc_barcodes := sc_barcodes sc; sc_mime := sc_mime sc;
     sc_separators := sc_separators sc; sc_parts := sc_parts sc;
     sc_publish := sc_publish sc; sc_messages := ms; sc_parser := sc_parser sc;
     sc_parse := sc_parse sc; sc_thumbnail_written := sc_thumbnail_written sc |}.

Definition with_parser (cls : option nat) (parsed : result unit) (thumb : bool)
    (sc : Script) : Script :=
  {| sc_barcodes := sc_barcodes sc; sc_mime := sc_mime sc;
     sc_separators := sc_separators sc; sc_parts := sc_parts sc;
     sc_publish := sc_publish sc; sc_messages := sc_messages sc; sc_parser := cls;
     sc_parse := parsed; sc_thumbnail_written := thumb |}.

Definition scan_tiff : list Path := [["consume"; "scan.tiff"]].

Definition ConnectionRefusedError : exn :=
  Exn (OSErrorClass "ConnectionRefusedError") "[Errno 111] Connect call failed".

(** What the sync wrapper raises when no channel layer is configured:
    [get_channel_layer()] is [None]. *)
Definition AttributeError : exn :=
  Exn (ExceptionClass "AttributeError")
      "'NoneType' object has no attribute 'group_send'".

(** A split with a file name override. *)
Definition named : Overrides :=
  {| override_filename := Some "scan.pdf"; override_title := None;
     override_correspondent_id := None; override_document_type_id := None;
     override_tag_ids := None; task_id := Some "4a1b"; override_created := None |}.

(** A document whose thumbnail file is missing when it is to be moved:
    the second move raises, the archive file has moved already. *)
Definition missing_thumbnail : Script :=
  with_parser (Some 0%nat) (Ok tt) false split_script.

Definition originals : list Path := [["media"; "originals"; "0000001.pdf"]].

Definition findings : SanityCheckMessages :=
  [ {| sm_level := INFO; sm_message := "Document 3 has no content." |};
    {| sm_level := WARNING; sm_message := "Orphaned file in media dir: /media/x.pdf" |};
    {| sm_level := ERROR; sm_message := "Original of document 1 does not exist." |} ].

(** Separators on page 1, but the separation writes no part. *)
Definition no_parts : Script := with_parts [1%nat] [] split_script.

(** A TIFF without separator barcodes. *)
Definition no_separators : Script := with_parts [] [] split_script.

(** No parser is registered for the type of the document. *)
Definition no_parser : Script := with_parser None (Ok tt) true split_script.





(** ** Further observations *)

Section MoreObservations.

Context {Ext Obj : Type}.

(** Some row of the four matching models has the automatic algorithm. *)
Definition some_automatic_matching (d : Database) : Prop :=
  exists k t,
    (tags d !! k = Some t \/ document_types d !! k = Some t \/
     correspondents d !! k = Some t \/ storage_paths d !! k = Some t) /\
    matching_algorithm t = MATCH_AUTO.

(** The calls of the barcode block that look at the file before it is
    split. *)
Definition is_barcode_probe (ev : @Event Obj) : Prop :=
  match ev with
  | E_get_file_mime_type _ _ | E_supported_file_type _ _
  | E_convert_from_tiff_to_pdf _ _ | E_scan_file_for_separating_barcodes _ _
  | E_separate_pages _ _ _ => True
  | _ => False
  end.

(** The calls of [update_document_archive_file] before its [try]. *)
Definition is_archive_setup (ev : @Event Obj) : Prop :=
  match ev with
  | E_get_parser_class_for_mime_type _ _ | E_uuid4 _ | E_parser_new _ _ _ => True
  | _ => False
  end.

(** The log record [log_messages] writes for a message. *)
Definition sanity_record (name : string) (m : SanityMessage) : LogRecord :=
  {| lr_name := name; lr_level := sm_level m; lr_msg := sm_message m;
     lr_exc_info := None |}.

Definition is_session_event (ev : @Event Obj) : bool :=
  match ev with
  | E_AsyncWriter _ _ | E_update_document _ _ _ | E_commit _ _ | E_cancel _ _ => true
  | _ => false
  end.

Definition is_unlink (ev : @Event Obj) : bool :=
  match ev with
  | E_unlink _ _ => true
  | _ => false
  end.

Definition is_move (ev : @Event Obj) : bool :=
  match ev with
  | E_move _ _ _ => true
  | _ => false
  end.

Definition is_cleanup (ev : @Event Obj) : bool :=
  match ev with
  | E_cleanup _ _ => true
  | _ => false
  end.

Definition is_lock_event (ev : @Event Obj) : bool :=
  match ev with
  | E_FileLock_acquire _ _ | E_FileLock_release _ _ => true
  | _ => false
  end.

End MoreObservations.

(** ** A replayed environment

    The outside state is a queue of replies, one per collaborator call in
    the order the calls are made: a call returns or raises as the next
    reply says.  A reply that returns carries a flag, which selects between
    the two values a collaborator can give here; an empty queue means
    every further call returns its usual value. *)

Inductive Reply : Type :=
| Returns (flag : bool)
| Raises (e : exn).

Definition reply {A : Type} (value : bool -> A) : @ext_fun (list Reply) A := fun q =>
  match q with
  | [] => (Ok (value true), [])
  | Returns b :: q' => (Ok (value b), q')
  | Raises e :: q' => (Raise e, q')
  end.

Definition consumed : DocumentInstance := {| pk := 4; row := invoice |}.

Definition replay_env (barcodes : bool) : @Env (list Reply) nat := {|
  settings := {| CONSUMER_ENABLE_BARCODES := barcodes;
                 MODEL_FILE := "/data/classification_model.pickle";
                 MEDIA_LOCK := "/media/media.lock" |};
  Path_resolve := fun s => reply (fun _ => ["consume"; s]);
  os_unlink := fun _ => reply (fun _ => tt);
  shutil_move := fun _ _ => reply (fun _ => tt);
  open_read := fun _ => reply (fun _ => "%PDF-1.7");
  md5_hexdigest := fun _ => "5f2b51ca2fdc5baa31ec02e002f69aec";
  uuid4 := reply (fun _ => "16fd2706-8baf-433b-82eb-8c7fada847da");
  FileLock_acquire := fun _ => reply (fun _ => tt);
  FileLock_release := fun _ => reply (fun _ => tt);
  get_file_mime_type := fun _ =>
    reply (fun b => if b then "image/tiff" else "application/pdf");
  supported_file_type := fun _ => reply (fun b => b);
  convert_from_tiff_to_pdf := fun _ => reply (fun _ => scratch_pdf);
  scan_file_for_separating_barcodes := fun _ =>
    reply (fun b => if b then [1%nat] else []);
  separate_pages := fun _ _ =>
    reply (fun b => if b then sc_parts split_script else []);
  save_to_dir := fun _ _ _ => reply (fun _ => tt);
  group_send := fun _ _ => reply (fun _ => tt);
  try_consume_file := fun _ _ d q =>
    match reply (fun b => if b then Some consumed else None) q with
    | (Ok (Some i), q') =>
        (Ok (Some i), set_documents (<[pk i := row i]> (documents d)) d, q')
    | (r, q') => (r, d, q')
    end;
  check_sanity := reply (fun b => if b then findings else []);
  sanity_logger := "paperless.sanity_checker";
  load_classifier := reply (fun b => if b then Some 5%nat else None);
  DocumentClassifier := reply (fun _ => 6%nat);
  train := fun _ => reply (fun b => b);
  save := fun _ => reply (fun _ => tt);
  open_index := reply (fun _ => 1%nat);
  post_save_send := fun i d q =>
    match reply (fun _ => i) q with
    | (r, q') => (r, d, q')
    end;
  AsyncWriter := fun _ => reply (fun _ => 2%nat);
  commit := fun _ => reply (fun _ => tt);
  cancel := fun _ => reply (fun _ => tt);
  update_document := fun _ _ => reply (fun _ => tt);
  open_index_writer_enter := reply (fun _ => 2%nat);
  open_index_writer_exit := fun _ _ => reply (fun b => negb b);
  get_parser_class_for_mime_type := fun _ =>
    reply (fun b => if b then Some 0%nat else None);
  parser_new := fun _ _ => reply (fun _ => 3%nat);
  parse := fun _ _ _ _ => reply (fun _ => tt);
  get_thumbnail := fun _ _ _ _ => reply (fun _ => scratch_thumbnail);
  get_archive_path := fun _ =>
    reply (fun b => if b then Some scratch_archive else None);
  get_text := fun _ => reply (fun _ => "Invoice 2022-03");
  cleanup := fun _ => reply (fun _ => tt);
  generate_unique_filename := fun _ _ _ => reply (fun _ => "0000001.pdf");
  create_source_path_directory := fun _ => reply (fun _ => tt);
  str_document := fun i => "2022-03-01 Invoice";
  source_path := fun i => ["media"; "originals"; default "" (filename (row i))];
  archive_path := fun i => ["media"; "archive"; default "" (archive_filename (row i))];
  thumbnail_path := fun i => ["media"; "thumbnails"; "0000001.webp"];
  get_public_filename := fun i => "2022-03-01 Invoice.pdf"
|}.

(** A store where one tag is matched automatically. *)
Definition auto_db : Database :=
  {| documents := documents demo_db;
     tags := {[ 1%Z := {| name := "inbox"; matching_algorithm := MATCH_AUTO |} ]};
     document_types := ∅;
     correspondents := correspondents demo_db;
     storage_paths := ∅ |}.

Definition replay_world (d : Database) (q : list Reply) : @World (list Reply) :=
  {| db := d; log := []; ext := q; local_document := None |}.

Definition MemoryError : exn := Exn (ExceptionClass "MemoryError") "out of memory".

Definition DiskFull : exn :=
  Exn (OSErrorClass "OSError") "[Errno 28] No space left on device".


(** Reply queues: the calls that return before the one that matters, then
    that one. *)
Definition training_unchanged : list Reply := [Returns true; Returns false].

Definition training_fails : list Reply := [Returns true; Raises MemoryError].

Definition unsupported_type : list Reply := [Returns true; Returns false; Returns false].

Definition second_part_fails : list Reply :=
  replicate 7 (Returns true) ++ [Raises DiskFull].

Definition conversion_fails : list Reply :=
  replicate 3 (Returns true) ++ [Raises DiskFull].

Definition receiver_fails : list Reply :=
  [Returns true; Returns true; Raises MemoryError].

Definition update_fails : list Reply :=
  replicate 4 (Returns true) ++ [Raises DiskFull].

Definition uuid_fails : list Reply := [Returns true; Raises MemoryError].

(** Exhibit an event in an explicit trace. *)
Ltac find_in :=
  lazymatch goal with
  | |- In _ (_ :: _) => first [ left; reflexivity | right; find_in ]
  | |- In _ (_ ++ _) => apply in_or_app; first [ left; find_in | right; find_in ]
  | |- In _ _ => assumption
  end.

(** ** Basic facts about the combinators *)

Section Properties.

Context {Ext Obj : Type} (env : @Env Ext Obj).

Lemma Level_eqb_eq (a b : Level) : Level_eqb a b = true <-> a = b.
Proof. destruct a, b; simpl; split; intros H; try reflexivity; discriminate H. Qed.

Lemma has_error_iff (messages : SanityCheckMessages) :
  has_error messages = true <-> any_level ERROR messages.
Proof.
  unfold has_error, any_level. rewrite existsb_exists.
  split; intros [m [Hin Hl]]; exists m; split; auto; now apply Level_eqb_eq.
Qed.

Lemma has_warning_iff (messages : SanityCheckMessages) :
  has_warning messages = true <-> any_level WARNING messages.
Proof.
  unfold has_warning, any_level. rewrite existsb_exists.
  split; intros [m [Hin Hl]]; exists m; split; auto; now apply Level_eqb_eq.
Qed.

(** Logging the message set calls no collaborator and does not raise. *)
Lemma log_messages_run (messages : SanityCheckMessages) (w : World) :
  exists w', log_messages env messages w = (Ok tt, w', []) /\ db w' = db w /\ ext w' = ext w.
Proof.
  unfold log_messages. revert w.
  induction messages as [|m ms IH]; intros w; simpl.
  - exists w. repeat split.
  - unfold mbind, M_bind, emit at 1.
    destruct (IH {| db := db w;
                    log := log w ++ [{| lr_name := sanity_logger env; lr_level := sm_level m;
                                        lr_msg := sm_message m; lr_exc_info := None |}];
                    ext := ext w; local_document := local_document w |})
      as [w' [Hrun [Hdb Hext]]].
    rewrite Hrun. exists w'. repeat split; assumption.
Qed.

(** ** Sanity reporter *)

(** C2: [sanity_check] maps the message set with the precedence
    error > warning > info > clean.  Any error makes the task raise
    [SanityCheckFailedException], whatever else the set holds; without an
    error, any warning gives the warning summary; without either, a
    non-empty set gives the info summary; the empty set gives the clean
    bill.  In particular a set with both an error and a warning gives the
    error outcome, not the warning one. *)
Theorem sanity_check_precedence (w : World) (messages : SanityCheckMessages) (x : Ext) :
  check_sanity env (ext w) = (Ok messages, x) ->
  let failure := Raise (Exn SanityCheckFailedException
                            "Sanity check failed with errors. See log.") in
  let r := outcome (sanity_check env w) in
  (any_level ERROR messages -> r = failure) /\
  (~ any_level ERROR messages -> any_level WARNING messages ->
     r = Ok "Sanity check exited with warnings. See log.") /\
  (~ any_level ERROR messages -> ~ any_level WARNING messages -> messages <> [] ->
     r = Ok "Sanity check exited with infos. See log.") /\
  (messages = [] -> r = Ok "No issues detected.") /\
  (any_level ERROR messages -> any_level WARNING messages ->
     r = failure /\ r <> Ok "Sanity check exited with warnings. See log.").
Proof.
  intros Hcheck failure r.
  assert (Hr : r = if has_error messages then failure
                   else if has_warning messages
                        then Ok "Sanity check exited with warnings. See log."
                        else if (0 <? length messages)%nat
                             then Ok "Sanity check exited with infos. See log."
                             else Ok "No issues detected.").
  { subst r. unfold sanity_check, outcome, mbind, M_bind, ext_call at 1.
    rewrite Hcheck.
    destruct (log_messages_run messages
                {| db := db w; log := log w; ext := x;
                   local_document := local_document w |}) as [w' [Hrun _]].
    rewrite Hrun.
    destruct (has_error messages); [reflexivity|].
    destruct (has_warning messages); [reflexivity|].
    destruct (0 <? length messages)%nat; reflexivity. }
  assert (Herr : any_level ERROR messages -> r = failure).
  { intros He. apply has_error_iff in He. now rewrite Hr, He. }
  split; [exact Herr|]. split; [|split; [|split]].
  - intros Hne Hw. rewrite Hr.
    destruct (has_error messages) eqn:E; [exfalso; apply Hne, has_error_iff, E|].
    apply has_warning_iff in Hw. now rewrite Hw.
  - intros Hne Hnw Hnil. rewrite Hr.
    destruct (has_error messages) eqn:E; [exfalso; apply Hne, has_error_iff, E|].
    destruct (has_warning messages) eqn:W; [exfalso; apply Hnw, has_warning_iff, W|].
    destruct messages; [congruence | reflexivity].
  - intros ->. rewrite Hr. reflexivity.
  - intros He _. split; [now apply Herr|].
    rewrite (Herr He). unfold failure. discriminate.
Qed.

(** ** Classifier trainer *)

Lemma exists_match_auto_false (table : gmap Z MatchingModel) :
  (forall k t, table !! k = Some t -> matching_algorithm t <> MATCH_AUTO) ->
  exists_match_auto table = false.
Proof.
  intros H. unfold exists_match_auto.
  destruct (existsb _ _) eqn:E; [|reflexivity].
  apply existsb_exists in E. destruct E as [[k t] [Hin Heq]].
  apply list_elem_of_In, elem_of_map_to_list in Hin.
  apply Z.eqb_eq in Heq. exfalso. exact (H k t Hin Heq).
Qed.

(** C7: when no Tag, DocumentType, Correspondent or StoragePath has the
    automatic matching algorithm, [train_classifier] returns at once: it
    calls no collaborator (the persisted model is not loaded, nothing is
    trained, nothing is saved) and leaves the state as it found it. *)
Theorem train_classifier_noop (w : World) :
  no_automatic_matching (db w) ->
  train_classifier env w = (Ok tt, w, []).
Proof.
  intros (Ht & Hd & Hc & Hs).
  unfold train_classifier, mbind, M_bind, get_db.
  rewrite (exists_match_auto_false _ Ht), (exists_match_auto_false _ Hd),
          (exists_match_auto_false _ Hc), (exists_match_auto_false _ Hs).
  reflexivity.
Qed.

(** ** Loops over collaborator calls *)

(** A loop of collaborator calls either completes, one recorded return per
    element, or stops at the first call that raises.  The store, the log
    and the bound instance are as before. *)
Lemma for_each_ext_call {A : Type} (f : A -> @ext_fun Ext unit)
    (ev : A -> result unit -> @Event Obj)
    (l : list A) (w w' : @World Ext) (r : result unit) (t : list (@Event Obj)) :
  for_each (fun a => ext_call (f a) (ev a)) l w = (r, w', t) ->
  db w' = db w /\ log w' = log w /\ local_document w' = local_document w /\
  ((r = Ok tt /\ t = map (fun a => ev a (Ok tt)) l) \/
   (exists l1 a l2 e, l = l1 ++ a :: l2 /\ r = Raise e /\
      t = map (fun a => ev a (Ok tt)) l1 ++ [ev a (Raise e)])).
Proof.
  revert w w' r t. induction l as [|a l IH]; intros w w' r t Hrun; simpl in Hrun.
  - injection Hrun as <- <- <-. repeat split. left. split; reflexivity.
  - unfold mbind, M_bind, ext_call at 1 in Hrun.
    destruct (f a (ext w)) as [[[]|e] x] eqn:Ef.
    + destruct (for_each _ l _) as [[r1 w1] t1] eqn:Eloop.
      injection Hrun as <- <- <-.
      apply IH in Eloop. simpl in Eloop.
      destruct Eloop as (Hdb & Hlog & Hloc & Hcases).
      split; [assumption|]. split; [assumption|]. split; [assumption|].
      destruct Hcases as [[Hr Ht]|(l1 & b & l2 & e & Hl & Hr & Ht)].
      * left. subst. split; reflexivity.
      * right. exists (a :: l1), b, l2, e. subst. repeat split.
    + injection Hrun as <- <- <-. repeat split.
      right. exists [], a, l, e. repeat split.
Qed.

Lemma map_enumerate_from {A B : Type} (g : nat * A -> B) (l : list A) (k : nat) :
  map g (combine (seq k (length l)) l) = imap (fun n a => g ((k + n)%nat, a)) l.
Proof.
  revert k. induction l as [|a l IH]; intros k; simpl; [reflexivity|].
  rewrite Nat.add_0_r. f_equal. rewrite IH.
  apply imap_ext. intros i x _. simpl. do 2 f_equal. lia.
Qed.

Lemma map_enumerate {A B : Type} (g : nat * A -> B) (l : list A) :
  map g (enumerate l) = imap (fun n a => g (n, a)) l.
Proof. unfold enumerate. now rewrite map_enumerate_from. Qed.

Lemma saved_is_save_to_dir (path : Path) (o : Overrides) (document_list : list Path) :
  Forall is_save_to_dir (@saved Obj path o document_list).
Proof.
  apply Forall_forall. intros ev Hin.
  unfold saved in Hin.
  apply elem_of_lookup_imap in Hin.
  destruct Hin as (n & document & -> & _). exact I.
Qed.

(** The loop over the parts: all are saved, or it stops at the first
    [save_to_dir] that raises. *)
Lemma save_parts_run (path : Path) (o : Overrides) (document_list : list Path)
    (w w' : @World Ext) (r : result unit) (t : list (@Event Obj)) :
  save_parts env path o document_list w = (r, w', t) ->
  db w' = db w /\ log w' = log w /\ local_document w' = local_document w /\
  ((r = Ok tt /\ t = saved path o document_list) \/
   (exists e t0 document n,
      r = Raise e /\ t = t0 ++ [E_save_to_dir document n (parent path) (Raise e)] /\
      Forall is_save_to_dir t0)).
Proof.
  unfold save_parts. intros Hrun.
  apply (for_each_ext_call
           (fun nd => save_to_dir env (snd nd) (newname o (fst nd)) (parent path))
           (fun nd => E_save_to_dir (snd nd) (newname o (fst nd)) (parent path))) in Hrun.
  destruct Hrun as (Hdb & Hlog & Hloc & Hcases).
  split; [assumption|]. split; [assumption|]. split; [assumption|].
  destruct Hcases as [[-> ->]|(l1 & [n document] & l2 & e & Hl & -> & ->)].
  - rewrite (map_enumerate
               (fun nd => E_save_to_dir (snd nd) (newname o (fst nd)) (parent path) (Ok tt))).
    left. split; reflexivity.
  - right. exists e. eexists. exists document. eexists.
    split; [reflexivity|]. split; [reflexivity|].
    apply Forall_forall. intros ev Hin. apply list_elem_of_In, in_map_iff in Hin.
    destruct Hin as (nd & <- & _). exact I.
Qed.

#[local] Arguments save_parts : simpl never.
#[local] Arguments saved : simpl never.

(** ** Exploring the runs of a task

    A task is a finite tree of collaborator calls.  [run_step] takes the
    next call whose outcome decides the rest of the run and splits on it;
    [explore] follows every branch to its end, where the outcome, the
    final state and the trace of the run are known. *)
Ltac run_normalise H :=
  repeat progress
    (unfold mbind, M_bind, mret, M_ret, ext_call, db_call, try_except, try_finally,
            atomic, with_, AsyncWriter_exit, logger_log, logger_exception, emit, raise,
            get_db, modify_db, set_local_document in H;
     simpl in H).

Ltac run_step H :=
  run_normalise H;
  match type of H with
  | context [match ?s with _ => _ end] =>
      lazymatch s with
      | context [match _ with _ => _ end] => fail
      | _ => idtac
      end;
      destruct s eqn:?
  end.

Ltac explore H :=
  repeat run_step H;
  run_normalise H;
  injection H as <- <- <-.

(** Membership in an explicit trace, one event at a time: the event is
    one of those listed, or it lies in the part a loop produced, where
    every event is of one kind. *)
Ltac in_trace H :=
  lazymatch type of H with
  | In _ (_ ++ _) => apply in_app_or in H; destruct H as [H|H]; in_trace H
  | In _ (_ :: _) =>
      destruct H as [H|H];
      [ try discriminate H; inversion H; subst; try clear H | in_trace H ]
  | In _ [] => destruct H
  | In _ ?l =>
      try (exfalso;
           first
             [ exact (proj1 (List.Forall_forall _ _) (saved_is_save_to_dir _ _ _) _ H)
             | match goal with
               | HF : Forall _ l |- _ => exact (proj1 (List.Forall_forall _ _) HF _ H)
               end ])
  end.

(** The loops of a run, replaced by what they are known to do. *)
Ltac loops :=
  repeat match goal with
  | E : save_parts _ _ _ _ _ = _ |- _ =>
      apply save_parts_run in E; simpl in E;
      destruct E as (? & ? & ? & [[? ?]|(? & ? & ? & ? & ? & ? & ?)]);
      try discriminate; subst
  end.

Ltac explore_consume_file H :=
  unfold consume_file, consume_file_barcodes in H; explore H; loops.

(** ** Barcode page splitter *)

(** C4: when separators were found but the separation returns no part,
    [consume_file] deletes nothing: the guard [if document_list] keeps the
    unlink of the original out of reach, and the file goes to the regular
    consumption.  In any run, an unlink happens only after the separation
    returned at least one part and every part was saved. *)
Theorem consume_file_keeps_original_without_parts (path : string) (o : Overrides)
    (w : @World Ext) :
  let run := consume_file env path o w in
  (forall f seps,
     In (E_separate_pages f seps (Ok [])) (trace run) ->
     seps <> [] /\
     In (E_scan_file_for_separating_barcodes f (Ok seps)) (trace run) /\
     (forall p r, ~ In (E_unlink p r) (trace run)) /\
     (exists p r, In (E_resolve path (Ok p)) (trace run) /\
                  In (E_try_consume_file p o r) (trace run))) /\
  (forall p r,
     In (E_unlink p r) (trace run) ->
     exists f seps document_list q,
       document_list <> [] /\
       In (E_separate_pages f seps (Ok document_list)) (trace run) /\
       In (E_resolve path (Ok q)) (trace run) /\
       forall ev, In ev (saved q o document_list) -> In ev (trace run)).
Proof.
  cbv zeta. destruct (consume_file env path o w) as [[r w'] tr] eqn:Hrun.
  unfold trace. simpl.
  explore_consume_file Hrun.
  all: split; [intros f seps Hin | intros q rq Hin].
  all: in_trace Hin.
  all: try (split; [discriminate|]; split; [find_in|];
            split; [intros q rq Hu; in_trace Hu|];
            do 2 eexists; split; find_in).
  all: do 4 eexists; (split; [|split; [|split]]);
       [ | find_in | find_in | ]; try discriminate;
       intros ev Hev; find_in.
Qed.

(** C10: a TIFF is converted before the scan; when the scan finds no
    separator, or the separation returns no part, [consume_file] deletes
    nothing, so the converted file stays where the conversion put it, and
    the consumer is handed the original path. *)
Theorem consume_file_tiff_without_parts (path : string) (o : Overrides)
    (w : @World Ext) (p converted : Path) :
  let run := consume_file env path o w in
  In (E_convert_from_tiff_to_pdf p (Ok converted)) (trace run) ->
  (In (E_scan_file_for_separating_barcodes converted (Ok [])) (trace run) \/
   exists seps, In (E_separate_pages converted seps (Ok [])) (trace run)) ->
  In (E_resolve path (Ok p)) (trace run) /\
  In (E_get_file_mime_type p (Ok "image/tiff")) (trace run) /\
  (forall q r, ~ In (E_unlink q r) (trace run)) /\
  (exists r, In (E_try_consume_file p o r) (trace run)) /\
  (forall q o' r, In (E_try_consume_file q o' r) (trace run) -> q = p /\ o' = o).
Proof.
  cbv zeta. destruct (consume_file env path o w) as [[r w'] tr] eqn:Hrun.
  unfold trace. simpl.
  explore_consume_file Hrun.
  all: intros Hc Hs; in_trace Hc.
  all: destruct Hs as [Hs|[seps Hs]]; in_trace Hs.
  all: repeat match goal with
       | H : String.eqb _ _ = true |- _ => apply String.eqb_eq in H; subst
       end.
  all: split; [find_in|]; split; [find_in|];
       split; [intros q rq Hu; in_trace Hu|];
       split; [eexists; find_in|];
       intros q o' rq Hu; in_trace Hu; split; reflexivity.
Qed.

(** What [Forall quiet] or [Forall returned] says of an explicit trace,
    one event at a time; a branch where a call raised against it is
    closed. *)
Ltac trace_facts H :=
  repeat match type of H with
  | Forall _ (_ :: _) =>
      let H1 := fresh in
      apply List.Forall_cons_iff in H; destruct H as [H1 H];
      unfold quiet, returned in H1; simpl in H1;
      try (exfalso;
           first
             [ discriminate H1
             | lazymatch type of H1 with
               | _ /\ _ => destruct H1 as [? ?]; congruence
               end ])
  | Forall _ (_ ++ _) =>
      let H1 := fresh in
      apply List.Forall_app in H; destruct H as [H1 H]; trace_facts H1
  end.

Lemma newname_supplied (o : Overrides) (n : nat) (c : Ascii.ascii) (f : string) :
  override_filename o = Some (String c f) ->
  newname o n = Some (str_nat n +:+ "_" +:+ String c f).
Proof. unfold newname. intros ->. reflexivity. Qed.

Lemma newname_not_supplied (o : Overrides) (n : nat) :
  override_filename o = None \/ override_filename o = Some "" -> newname o n = None.
Proof. unfold newname. intros [-> | ->]; reflexivity. Qed.

(** C8: when the separation returns at least one part, the parts are not
    consumed by [consume_file].  If moreover no call fails, every part is
    saved to the directory of the original, the [n]-th one (counted from
    zero) under the override name prefixed with [n] and an underscore
    when an override was supplied and under no name otherwise; then the
    converted file (for a TIFF) and the original are unlinked, the
    progress message is sent, and the task returns
    ["File successfully split"]. *)
Theorem consume_file_split (path : string) (o : Overrides) (w : @World Ext)
    (f : Path) (seps : list nat) (document_list : list Path) :
  let run := consume_file env path o w in
  In (E_separate_pages f seps (Ok document_list)) (trace run) ->
  document_list <> [] ->
  (forall p o' r, ~ In (E_try_consume_file p o' r) (trace run)) /\
  (forall n c name, override_filename o = Some (String c name) ->
                    newname o n = Some (str_nat n +:+ "_" +:+ String c name)) /\
  (override_filename o = None -> forall n, newname o n = None) /\
  (Forall quiet (trace run) ->
   outcome run = Ok "File successfully split" /\
   exists p mime published,
     let tiff := String.eqb mime "image/tiff" in
     trace run =
       [E_resolve path (Ok p); E_get_file_mime_type p (Ok mime);
        E_supported_file_type mime (Ok true)]
       ++ (if tiff then [E_convert_from_tiff_to_pdf p (Ok f)] else [])
       ++ [E_scan_file_for_separating_barcodes f (Ok seps);
           E_separate_pages f seps (Ok document_list)]
       ++ imap (fun n document =>
                  E_save_to_dir document (newname o n) (parent p) (Ok tt))
               document_list
       ++ (if tiff then [E_unlink f (Ok tt)] else [])
       ++ [E_unlink p (Ok tt);
           E_group_send "status_updates" (split_payload o) published] /\
     (tiff = false -> f = p)).
Proof.
  cbv zeta. destruct (consume_file env path o w) as [[r w'] tr] eqn:Hrun.
  unfold trace, outcome. simpl.
  explore_consume_file Hrun.
  all: intros Hin Hne; in_trace Hin; try congruence.
  all: (split; [intros q o' rq Hu; in_trace Hu|]).
  all: (split; [intros k c name Ho; now apply newname_supplied|]).
  all: (split; [intros Ho k; apply newname_not_supplied; now left|]).
  all: intros Hq; trace_facts Hq.
  all: split; [reflexivity|].
  all: repeat match goal with u : unit |- _ => destruct u end.
  all: repeat match goal with
       | H : negb ?b = false |- _ => destruct b; [clear H | discriminate H]
       end.
  all: do 3 eexists.
  all: match goal with
       | H : String.eqb _ _ = _ |- _ => rewrite H
       end.
  all: rewrite ?app_nil_r; split; [reflexivity | try reflexivity; try discriminate].
Qed.

(** C3, as the code has it: when the publish raises an [OSError] (the
    class or a subclass), the failure is logged with two warnings and the
    task still returns ["File successfully split"]; an exception of any
    other class leaves [consume_file] as it was raised. *)
Theorem consume_file_publish_failure (path : string) (o : Overrides) (w : @World Ext)
    (group : string) (payload : Payload) (e : exn) :
  let run := consume_file env path o w in
  In (E_group_send group payload (Raise e)) (trace run) ->
  (is_OSError e = true ->
     outcome run = Ok "File successfully split" /\
     exists l,
       log (final run) =
         l ++ [ {| lr_name := logger; lr_level := WARNING;
                   lr_msg := "OSError. It could be, the broker cannot be reached.";
                   lr_exc_info := None |};
                {| lr_name := logger; lr_level := WARNING;
                   lr_msg := str_exn e; lr_exc_info := None |} ]) /\
  (is_OSError e = false -> outcome run = Raise e).
Proof.
  cbv zeta. destruct (consume_file env path o w) as [[r w'] tr] eqn:Hrun.
  unfold trace, outcome, final. simpl.
  explore_consume_file Hrun.
  all: intros Hin; in_trace Hin.
  all: split; intros Hos; try congruence.
  all: split; [reflexivity|].
  all: simpl; eexists; rewrite <- app_assoc; reflexivity.
Qed.

(** ** Index synchronizer *)

Lemma documents_filter_id_in_spec (ids : list Z) (d : Database) (i : DocumentInstance) :
  In i (documents_filter_id_in ids d) <->
  In (pk i) ids /\ documents d !! pk i = Some (row i).
Proof.
  unfold documents_filter_id_in. rewrite <- list_elem_of_In, list_elem_of_omap. split.
  - intros ([k v] & Hin & Hf). apply elem_of_map_to_list in Hin. simpl in Hf.
    destruct (existsb (Z.eqb k) ids) eqn:E; [|discriminate Hf].
    injection Hf as <-. simpl. split; [|assumption].
    apply existsb_exists in E. destruct E as (k' & Hk & Heq).
    apply Z.eqb_eq in Heq. now subst.
  - intros [Hids Hrow]. exists (pk i, row i). split.
    + now apply elem_of_map_to_list.
    + simpl. replace (existsb (Z.eqb (pk i)) ids) with true; [now destruct i|].
      symmetry. apply existsb_exists. exists (pk i). split; [assumption|apply Z.eqb_refl].
Qed.

Lemma notify_all_run (documents : list DocumentInstance) (w w' : @World Ext)
    (r : result (list DocumentInstance)) (t : list (@Event Obj)) :
  notify_all env documents w = (r, w', t) ->
  log w' = log w /\ local_document w' = local_document w /\
  ((exists documents', r = Ok documents' /\ length documents' = length documents /\
                       t = notified documents documents') \/
   (exists e t0 d, r = Raise e /\ t = t0 ++ [E_post_save_send d (Raise e)] /\
                   Forall is_post_save_send t0)).
Proof.
  unfold notify_all. revert w w' r t.
  induction documents as [|d ds IH]; intros w w' r t Hrun; simpl in Hrun.
  - injection Hrun as <- <- <-. repeat split.
    left. exists []. repeat split.
  - unfold mbind, M_bind, db_call at 1 in Hrun.
    destruct (post_save_send env d (db w) (ext w)) as [[[d'|e] dbs] x] eqn:Ef.
    + destruct (for_each_obj _ ds _) as [[r1 w1] t1] eqn:Eloop.
      apply IH in Eloop. simpl in Eloop.
      destruct Eloop as (Hlog & Hloc & Hcases).
      destruct Hcases as [(ds' & -> & Hlen & ->)|(e & t0 & d0 & -> & -> & Hall)].
      * injection Hrun as <- <- <-.
        split; [assumption|]. split; [assumption|].
        left. exists (d' :: ds'). rewrite app_nil_r. simpl. repeat split. now f_equal.
      * injection Hrun as <- <- <-.
        split; [assumption|]. split; [assumption|].
        right. exists e, (E_post_save_send d (Ok d') :: t0), d0.
        repeat split. constructor; [exact I|assumption].
    + injection Hrun as <- <- <-. repeat split.
      right. exists e, [], d. repeat split. constructor.
Qed.

Lemma notified_is_post_save_send (documents documents' : list DocumentInstance) :
  Forall is_post_save_send (@notified Obj documents documents').
Proof.
  unfold notified. revert documents'.
  induction documents as [|d ds IH]; intros [|d' ds']; simpl; constructor;
    [exact I | apply IH].
Qed.

Lemma indexed_is_update_document (writer : Obj) (documents : list DocumentInstance) :
  Forall is_update_document (indexed writer documents).
Proof.
  unfold indexed. induction documents; simpl; constructor; [exact I | assumption].
Qed.

Lemma update_all_run (writer : Obj) (documents : list DocumentInstance) (w w' : @World Ext)
    (r : result unit) (t : list (@Event Obj)) :
  update_all env writer documents w = (r, w', t) ->
  db w' = db w /\ log w' = log w /\ local_document w' = local_document w /\
  ((r = Ok tt /\ t = indexed writer documents) \/
   (exists e t0 d, r = Raise e /\ t = t0 ++ [E_update_document writer d (Raise e)] /\
                   Forall is_update_document t0)).
Proof.
  unfold update_all. intros Hrun.
  apply (for_each_ext_call (fun doc => update_document env writer doc)
                           (fun doc => E_update_document writer doc)) in Hrun.
  destruct Hrun as (Hdb & Hlog & Hloc & Hcases).
  split; [assumption|]. split; [assumption|]. split; [assumption|].
  destruct Hcases as [[-> ->]|(l1 & a & l2 & e & Hl & -> & ->)].
  - left; split; reflexivity.
  - right. exists e. eexists. exists a. split; [reflexivity|]. split; [reflexivity|].
    apply (indexed_is_update_document writer l1).
Qed.

#[local] Arguments notify_all : simpl never.
#[local] Arguments update_all : simpl never.

#[local] Arguments notified : simpl never.
#[local] Arguments indexed : simpl never.

Ltac index_loops :=
  repeat match goal with
  | E : notify_all _ _ _ = _ |- _ =>
      apply notify_all_run in E; simpl in E;
      destruct E as (? & ? & [(? & ? & ? & ?)|(? & ? & ? & ? & ? & ?)]);
      try discriminate; subst
  | H : Ok ?a = Ok ?b |- _ =>
      first [ is_var a; injection H as -> | is_var b; injection H as <- | clear H ]
  | H : Raise ?a = Raise ?b |- _ =>
      first [ is_var a; injection H as -> | is_var b; injection H as <- | clear H ]
  | E : update_all _ _ _ _ = _ |- _ =>
      apply update_all_run in E; simpl in E;
      destruct E as (? & ? & ? & [(? & ?)|(? & ? & ? & ? & ? & ?)]);
      try discriminate; subst
  end.

(** C9: [bulk_update_documents] sends the post-save signal for each
    document whose id is among the given ones, and only then opens a
    writer; the index updates all lie in that one session.  In every run
    the trace is the opening of the index, then signals only, then at
    most one writer session.  When no call fails, the trace is exactly:
    one signal per matching document, one writer, one update per
    document (the instance as the receivers left it), one commit. *)
Theorem bulk_update_notifies_then_indexes (document_ids : list Z) (w : @World Ext) :
  let run := bulk_update_documents env document_ids w in
  let matching := documents_filter_id_in document_ids (db w) in
  (forall i, In i matching <->
             In (pk i) document_ids /\ documents (db w) !! pk i = Some (row i)) /\
  (exists r0 notifications session,
     trace run = E_open_index r0 :: notifications ++ session /\
     Forall is_post_save_send notifications /\
     (session = [] \/ writer_session session)) /\
  (Forall returned (trace run) ->
   outcome run = Ok tt /\
   exists ix writer matching',
     length matching' = length matching /\
     trace run =
       [E_open_index (Ok ix)]
       ++ notified matching matching'
       ++ [E_AsyncWriter ix (Ok writer)]
       ++ indexed writer matching'
       ++ [E_commit writer (Ok tt)]).
Proof.
  cbv zeta. split; [intros i; apply documents_filter_id_in_spec|].
  destruct (bulk_update_documents env document_ids w) as [[r w'] tr] eqn:Hrun.
  unfold trace, outcome. simpl.
  unfold bulk_update_documents in Hrun. explore Hrun. all: index_loops.
  all: split; [ | intros Hq; trace_facts Hq ].
  all: repeat match goal with u : unit |- _ => destruct u end.
  all: try (split; [reflexivity|]; do 3 eexists; split; [eassumption|reflexivity]).
  all: lazymatch goal with
       | |- exists r0 n s, _ :: ?N ++ E_AsyncWriter ?ix ?rw :: ?rest = _ /\ _ =>
           eexists; exists N, (E_AsyncWriter ix rw :: rest)
       | |- exists r0 n s, _ :: ?N ++ [E_AsyncWriter ?ix ?rw] = _ /\ _ =>
           eexists; exists N, [E_AsyncWriter ix rw]
       | |- exists r0 n s, _ :: ?N = _ /\ _ =>
           eexists; exists N, []; rewrite app_nil_r
       end.
  all: split; [reflexivity|].
  all: split;
       [ first [ apply notified_is_post_save_send
               | apply Forall_app; split; [assumption | repeat constructor]
               | constructor ] | ].
  all: try (left; reflexivity).
  all: right; unfold writer_session.
  all: lazymatch goal with
       | |- exists ix rw u c, _ :: ?U ++ ?C = _ /\ _ => do 2 eexists; exists U, C
       | |- exists ix rw u c, [_] = _ /\ _ => do 2 eexists; exists [], []
       end.
  all: split; [reflexivity|].
  all: split;
       [ first [ apply indexed_is_update_document
               | apply Forall_app; split; [assumption | repeat constructor]
               | constructor ] | ].
  all: first [ left; reflexivity
             | right; do 2 eexists; left; reflexivity
             | right; do 2 eexists; right; reflexivity ].
Qed.

(** ** Archive regenerator *)

Ltac explore_archive H :=
  unfold update_document_archive_file, archive_try_body, archive_atomic_block,
         archive_handler in H;
  explore H.

(** C1: the two moves lie inside [transaction.atomic()], after the update
    of the row.  When a move raises, the exception leaves the atomic
    block, the update of [archive_checksum], [content] and
    [archive_filename] is rolled back, and the store after the task is the
    store before it. *)
Theorem archive_move_failure_rolls_back (document_id : Z) (w : @World Ext)
    (src : option Path) (dst : Path) (e : exn) :
  let run := update_document_archive_file env document_id w in
  In (E_move src dst (Raise e)) (trace run) ->
  db (final run) = db w.
Proof.
  cbv zeta. destruct (update_document_archive_file env document_id w)
    as [[r w'] tr] eqn:Hrun.
  unfold trace, final. simpl.
  explore_archive Hrun.
  all: intros Hin; in_trace Hin.
  all: reflexivity.
Qed.

(** C5: when no parser is registered for the MIME type of the document,
    [update_document_archive_file] logs one error and returns; the only
    call made is the parser lookup, and the store is untouched. *)
Theorem archive_no_parser (document_id : Z) (w : @World Ext) (r : Document) (x : Ext) :
  documents (db w) !! document_id = Some r ->
  get_parser_class_for_mime_type env (mime_type r) (ext w) = (Ok None, x) ->
  let run := update_document_archive_file env document_id w in
  let document := {| pk := document_id; row := r |} in
  outcome run = Ok tt /\
  db (final run) = db w /\
  trace run = [E_get_parser_class_for_mime_type (mime_type r) (Ok None)] /\
  log (final run) =
    log w ++ [ {| lr_name := logger; lr_level := ERROR;
                  lr_msg := "No parser found for mime type " +:+ mime_type r
                            +:+ ", cannot archive document " +:+ str_document env document
                            +:+ " (ID: " +:+ str_Z document_id +:+ ")";
                  lr_exc_info := None |} ].
Proof.
  intros Hrow Hparser. cbv zeta.
  unfold update_document_archive_file, outcome, final, trace.
  unfold mbind, M_bind, get_db, set_local_document, ext_call, logger_log, emit.
  rewrite Hrow. simpl. rewrite Hparser. simpl. repeat split.
Qed.


#[local] Arguments archive_try_body : simpl never.


(** ** Classifier trainer, beyond the guard *)

Lemma exists_match_auto_true (table : gmap Z MatchingModel) (k : Z) (t : MatchingModel) :
  table !! k = Some t -> matching_algorithm t = MATCH_AUTO ->
  exists_match_auto table = true.
Proof.
  intros Hl Ha. unfold exists_match_auto. apply existsb_exists.
  exists (k, t). split.
  - apply list_elem_of_In. now apply elem_of_map_to_list.
  - simpl. now apply Z.eqb_eq.
Qed.

(** X1: as soon as one row of the four matching models has the automatic
    algorithm, [train_classifier] goes past the guard: the first thing it
    does is to load the persisted classifier. *)
Theorem train_classifier_loads_when_automatic (w : @World Ext) :
  some_automatic_matching (db w) ->
  exists r rest, trace (train_classifier env w) = E_load_classifier r :: rest.
Proof.
  intros (k & t & Hrow & Hauto).
  assert (Hguard : negb (exists_match_auto (tags (db w)))
                   && negb (exists_match_auto (document_types (db w)))
                   && negb (exists_match_auto (correspondents (db w)))
                   && negb (exists_match_auto (storage_paths (db w))) = false).
  { destruct Hrow as [H|[H|[H|H]]];
      rewrite (exists_match_auto_true _ k t H Hauto); simpl;
      rewrite ?andb_false_r; reflexivity. }
  destruct (train_classifier env w) as [[r w'] tr] eqn:Hrun. unfold trace. simpl.
  unfold train_classifier in Hrun. run_normalise Hrun. rewrite Hguard in Hrun.
  explore Hrun. all: do 2 eexists; reflexivity.
Qed.

(** X2: the classifier that is trained is the persisted one when there is
    one, and a fresh [DocumentClassifier()] only when the load gave
    nothing. *)
Theorem train_classifier_trains_loaded_or_fresh (w : @World Ext) :
  let run := train_classifier env w in
  (forall c, In (E_load_classifier (Ok (Some c))) (trace run) ->
     (forall r, ~ In (E_DocumentClassifier r) (trace run)) /\
     exists r, In (E_train c r) (trace run)) /\
  (forall c r, In (E_train c r) (trace run) ->
     In (E_load_classifier (Ok (Some c))) (trace run) \/
     (In (E_load_classifier (Ok None)) (trace run) /\
      In (E_DocumentClassifier (Ok c)) (trace run))).
Proof.
  cbv zeta. destruct (train_classifier env w) as [[r w'] tr] eqn:Hrun.
  unfold trace. simpl.
  unfold train_classifier in Hrun. explore Hrun.
  all: split; [intros c Hin | intros c rt Hin]; in_trace Hin.
  all: try (split; [intros rc Hc; in_trace Hc | eexists; find_in]).
  all: first [ left; find_in | right; split; find_in ].
Qed.

(** X3: the model is saved exactly when the training reports a change.
    Without a change nothing is saved, the task logs "Training data
    unchanged." at debug level and returns. *)
Theorem train_classifier_saves_when_changed (w : @World Ext) :
  let run := train_classifier env w in
  (forall c r, In (E_save c r) (trace run) -> In (E_train c (Ok true)) (trace run)) /\
  (forall c, In (E_train c (Ok true)) (trace run) ->
     exists r, In (E_save c r) (trace run)) /\
  (forall c, In (E_train c (Ok false)) (trace run) ->
     (forall c' r, ~ In (E_save c' r) (trace run)) /\
     outcome run = Ok tt /\
     log (final run) =
       log w ++ [ {| lr_name := logger; lr_level := DEBUG;
                     lr_msg := "Training data unchanged."; lr_exc_info := None |} ]).
Proof.
  cbv zeta. destruct (train_classifier env w) as [[r w'] tr] eqn:Hrun.
  unfold trace, outcome, final. simpl.
  unfold train_classifier in Hrun. explore Hrun.
  all: split; [intros c rs Hin; in_trace Hin; find_in|].
  all: split; [intros c Hin; in_trace Hin; eexists; find_in|].
  all: intros c Hin; in_trace Hin.
  all: split; [intros c' rs Hs; in_trace Hs|]; split; reflexivity.
Qed.

(** X4: a failure of the training or of the save never fails the task.
    An [Exception] raised by [train] or [save] is logged as the warning
    "Classifier error: " followed by its text, and the task returns.  The
    only [Exception] that can leave [train_classifier] is one raised
    while loading or constructing the classifier, before the [try]. *)
Theorem train_classifier_contains_training_errors (w : @World Ext) :
  let run := train_classifier env w in
  (forall c e,
     In (E_train c (Raise e)) (trace run) \/ In (E_save c (Raise e)) (trace run) ->
     is_Exception e = true ->
     outcome run = Ok tt /\
     exists l, log (final run) =
       l ++ [ {| lr_name := logger; lr_level := WARNING;
                 lr_msg := "Classifier error: " +:+ str_exn e;
                 lr_exc_info := None |} ]) /\
  (forall e, outcome run = Raise e -> is_Exception e = true ->
     In (E_load_classifier (Raise e)) (trace run) \/
     In (E_DocumentClassifier (Raise e)) (trace run)).
Proof.
  cbv zeta. destruct (train_classifier env w) as [[r w'] tr] eqn:Hrun.
  unfold trace, outcome, final. simpl.
  unfold train_classifier in Hrun. explore Hrun.
  all: split; [intros c e' [Hin|Hin] He; in_trace Hin; try congruence;
               (split; [reflexivity|]); simpl; eexists;
               first [reflexivity | rewrite <- app_assoc; reflexivity]
              | intros e' Ho He; try discriminate Ho; injection Ho as ->;
                try congruence; first [left; find_in | right; find_in] ].
Qed.

(** ** Barcode page splitter, the other paths *)

(** X5: with [CONSUMER_ENABLE_BARCODES] off no barcode helper is called:
    the path is resolved and handed to the consumer, and nothing is
    logged. *)
Theorem consume_file_barcodes_disabled (path : string) (o : Overrides) (w : @World Ext) :
  CONSUMER_ENABLE_BARCODES (settings env) = false ->
  let run := consume_file env path o w in
  log (final run) = log w /\
  ((exists e, trace run = [E_resolve path (Raise e)] /\ outcome run = Raise e) \/
   (exists p r, trace run = [E_resolve path (Ok p); E_try_consume_file p o r])).
Proof.
  intros Hoff. cbv zeta.
  destruct (consume_file env path o w) as [[r w'] tr] eqn:Hrun.
  unfold trace, outcome, final. simpl.
  unfold consume_file, consume_file_barcodes in Hrun. rewrite Hoff in Hrun.
  explore Hrun.
  all: split; [reflexivity|].
  all: first [ left; eexists; split; reflexivity | right; do 2 eexists; reflexivity ].
Qed.

(** X6: a file whose type the barcode reader does not support is not
    scanned.  The task logs one warning that names the type and hands the
    original path to the consumer. *)
Theorem consume_file_unsupported_type (path : string) (o : Overrides) (w : @World Ext)
    (mime : string) :
  let run := consume_file env path o w in
  In (E_supported_file_type mime (Ok false)) (trace run) ->
  (exists p r,
     trace run = [E_resolve path (Ok p); E_get_file_mime_type p (Ok mime);
                  E_supported_file_type mime (Ok false); E_try_consume_file p o r]) /\
  log (final run) =
    log w ++ [ {| lr_name := logger; lr_level := WARNING;
                  lr_msg := "Unsupported file format for barcode reader: " +:+ mime;
                  lr_exc_info := None |} ].
Proof.
  cbv zeta. destruct (consume_file env path o w) as [[r w'] tr] eqn:Hrun.
  unfold trace, outcome, final. simpl.
  explore_consume_file Hrun.
  all: intros Hin; in_trace Hin.
  all: repeat match goal with
       | H : negb _ = false |- _ => apply negb_false_iff in H
       | H : negb _ = true |- _ => apply negb_true_iff in H
       end; try discriminate.
  all: split; [do 2 eexists; reflexivity | reflexivity].
Qed.

(** X7: what the task reports after a consumption is decided by the
    consumer alone.  The consumer is called with the resolved path and
    the overrides as given; a document gives the success string with its
    id, no document gives [ConsumerError], an exception of the consumer
    goes through.  A task that returns returns one of the two strings. *)
Theorem consume_file_reports_consumer_outcome (path : string) (o : Overrides)
    (w : @World Ext) :
  let run := consume_file env path o w in
  (forall p o' r,
     In (E_try_consume_file p o' r) (trace run) ->
     o' = o /\ In (E_resolve path (Ok p)) (trace run) /\
     outcome run =
       match r with
       | Ok (Some d) => Ok ("Success. New document id " +:+ str_Z (pk d) +:+ " created")
       | Ok None =>
           Raise (Exn ConsumerError
                      "Unknown error: Returned document was null, but no error message was given.")
       | Raise e => Raise e
       end) /\
  (forall s, outcome run = Ok s ->
     s = "File successfully split" \/
     exists p d, In (E_try_consume_file p o (Ok (Some d))) (trace run) /\
                 s = "Success. New document id " +:+ str_Z (pk d) +:+ " created").
Proof.
  cbv zeta. destruct (consume_file env path o w) as [[r w'] tr] eqn:Hrun.
  unfold trace, outcome, final. simpl.
  explore_consume_file Hrun.
  all: split; [intros q o' rq Hin; in_trace Hin | intros s Hs; try discriminate Hs].
  all: try (split; [reflexivity|]; split; [find_in | reflexivity]).
  all: injection Hs as <-.
  all: first [ left; reflexivity
             | right; do 2 eexists; split; [find_in | reflexivity] ].
Qed.

(** In the trace of [save_parts] only the last call can have raised. *)
Lemma save_parts_raises_last (path : Path) (o : Overrides) (document_list : list Path)
    (w w' : @World Ext) (r : result unit) (t : list (@Event Obj)) :
  save_parts env path o document_list w = (r, w', t) ->
  Forall is_save_to_dir t /\
  ((r = Ok tt /\ Forall returned t) \/
   (exists e t0 document n,
      r = Raise e /\ t = t0 ++ [E_save_to_dir document n (parent path) (Raise e)] /\
      Forall returned t0 /\ Forall is_save_to_dir t0)).
Proof.
  unfold save_parts. intros Hrun.
  apply (for_each_ext_call
           (fun nd => save_to_dir env (snd nd) (newname o (fst nd)) (parent path))
           (fun nd => E_save_to_dir (snd nd) (newname o (fst nd)) (parent path))) in Hrun.
  destruct Hrun as (_ & _ & _ & [[-> ->]|(l1 & [n document] & l2 & e & _ & -> & ->)]).
  - split.
    + apply List.Forall_forall. intros ev Hin. apply in_map_iff in Hin.
      destruct Hin as (nd & <- & _). exact I.
    + left. split; [reflexivity|].
      apply List.Forall_forall. intros ev Hin. apply in_map_iff in Hin.
      destruct Hin as (nd & <- & _). reflexivity.
  - assert (Hsaves : Forall (@is_save_to_dir Obj)
             (map (fun a => E_save_to_dir (snd a) (newname o (fst a)) (parent path) (Ok tt))
                  l1)).
    { apply List.Forall_forall. intros ev Hin. apply in_map_iff in Hin.
      destruct Hin as (nd & <- & _). exact I. }
    split.
    + apply List.Forall_app. split; [exact Hsaves | repeat constructor].
    + right. exists e. eexists. exists document. eexists.
      split; [reflexivity|]. split; [reflexivity|]. split; [|exact Hsaves].
      apply List.Forall_forall. intros ev Hin. apply in_map_iff in Hin.
      destruct Hin as (nd & <- & _). reflexivity.
Qed.

(** The runs of [consume_file], with what is known of a failed save. *)
Ltac explore_consume_file_saves H :=
  unfold consume_file, consume_file_barcodes in H; explore H;
  repeat match goal with
  | E : save_parts _ _ _ _ _ = _ |- _ =>
      apply save_parts_raises_last in E; simpl in E;
      destruct E as (? & [[? ?]|(? & ? & ? & ? & ? & ? & ? & ?)]);
      try discriminate; subst
  end;
  repeat match goal with
  | H : Raise _ = Raise _ |- _ => injection H as H; subst
  end.

(** A raised call cannot lie in a part of the trace where every call
    returned. *)
Ltac not_returned H :=
  match type of H with
  | In _ ?l =>
      match goal with
      | HF : Forall returned l |- _ =>
          exfalso; apply (proj1 (List.Forall_forall _ _) HF) in H; discriminate H
      end
  end.

(** X8: when writing a part fails, nothing is deleted.  The exception of
    [save_to_dir] leaves the task before the unlinks: the original (and
    the converted file) stay, no progress message is sent, and the file
    is not consumed. *)
Theorem consume_file_save_failure_keeps_original (path : string) (o : Overrides)
    (w : @World Ext) (document : Path) (name : option string) (target : Path) (e : exn) :
  let run := consume_file env path o w in
  In (E_save_to_dir document name target (Raise e)) (trace run) ->
  outcome run = Raise e /\
  (forall p r, ~ In (E_unlink p r) (trace run)) /\
  (forall g pl r, ~ In (E_group_send g pl r) (trace run)) /\
  (forall p o' r, ~ In (E_try_consume_file p o' r) (trace run)).
Proof.
  cbv zeta. destruct (consume_file env path o w) as [[r w'] tr] eqn:Hrun.
  unfold trace, outcome, final. simpl.
  explore_consume_file_saves Hrun.
  all: intros Hin; in_trace Hin; try not_returned Hin.
  all: split; [reflexivity|].
  all: split; [intros q rq Hu; in_trace Hu|].
  all: split; [intros g pl rq Hu; in_trace Hu | intros q o' rq Hu; in_trace Hu].
Qed.

(** X9: [consume_file] itself never writes to the relational store.  A
    run in which the consumer is not called (a split, or a failure
    before the consumption) leaves the store as it was. *)
Theorem consume_file_store_untouched_without_consumer (path : string) (o : Overrides)
    (w : @World Ext) :
  let run := consume_file env path o w in
  (forall p o' r, ~ In (E_try_consume_file p o' r) (trace run)) ->
  db (final run) = db w.
Proof.
  cbv zeta. destruct (consume_file env path o w) as [[r w'] tr] eqn:Hrun.
  unfold trace, final. simpl.
  explore_consume_file Hrun.
  all: intros Hno; simpl; try congruence.
  all: exfalso; eapply Hno; find_in.
Qed.

(** X10: the file that is scanned for barcodes is the converted PDF for a
    TIFF and the original itself for any other supported type, which is
    never converted. *)
Theorem consume_file_scans_converted_only_for_tiff (path : string) (o : Overrides)
    (w : @World Ext) (f : Path) (r : result (list nat)) :
  let run := consume_file env path o w in
  In (E_scan_file_for_separating_barcodes f r) (trace run) ->
  exists p mime,
    In (E_resolve path (Ok p)) (trace run) /\
    In (E_get_file_mime_type p (Ok mime)) (trace run) /\
    In (E_supported_file_type mime (Ok true)) (trace run) /\
    if String.eqb mime "image/tiff"
    then In (E_convert_from_tiff_to_pdf p (Ok f)) (trace run)
    else f = p /\ forall q rq, ~ In (E_convert_from_tiff_to_pdf q rq) (trace run).
Proof.
  cbv zeta. destruct (consume_file env path o w) as [[ro w'] tr] eqn:Hrun.
  unfold trace. simpl.
  explore_consume_file Hrun.
  all: intros Hin; in_trace Hin.
  all: repeat match goal with
       | H : negb _ = false |- _ => apply negb_false_iff in H; subst
       end.
  all: do 2 eexists; split; [find_in|]; split; [find_in|]; split; [find_in|].
  all: match goal with
       | H : String.eqb _ _ = _ |- _ => rewrite H
       end.
  all: first [ find_in | split; [reflexivity | intros q rq Hc; in_trace Hc] ].
Qed.

Lemma no_unlink_among_saves (l : list (@Event Obj)) :
  Forall is_save_to_dir l -> List.filter is_unlink l = [].
Proof.
  induction 1 as [|ev l Hev _ IH]; [reflexivity|].
  simpl. rewrite IH. destruct ev; try contradiction; reflexivity.
Qed.

(** X11: the deletions follow a fixed order.  A run unlinks nothing; or,
    for a file that was not converted, the original alone; or, for a
    TIFF, the converted file first and the original only if that unlink
    returned.  The progress message goes to the group ["status_updates"]
    with the payload of a finished task, and only after the unlink of the
    original returned. *)
Theorem consume_file_deletion_order (path : string) (o : Overrides) (w : @World Ext) :
  let run := consume_file env path o w in
  let unlinks := List.filter is_unlink (trace run) in
  (unlinks = [] \/
   exists p,
     In (E_resolve path (Ok p)) (trace run) /\
     ((exists r, unlinks = [E_unlink p r] /\
                 forall q rq, ~ In (E_convert_from_tiff_to_pdf q rq) (trace run)) \/
      (exists converted,
         In (E_convert_from_tiff_to_pdf p (Ok converted)) (trace run) /\
         ((exists e, unlinks = [E_unlink converted (Raise e)]) \/
          (exists r, unlinks = [E_unlink converted (Ok tt); E_unlink p r]))))) /\
  (forall group payload r,
     In (E_group_send group payload r) (trace run) ->
     group = "status_updates" /\ payload = split_payload o /\
     exists p before,
       In (E_resolve path (Ok p)) (trace run) /\
       unlinks = before ++ [E_unlink p (Ok tt)]).
Proof.
  cbv zeta. destruct (consume_file env path o w) as [[r w'] tr] eqn:Hrun.
  unfold trace, outcome. simpl.
  explore_consume_file_saves Hrun.
  all: repeat match goal with u : unit |- _ => destruct u end.
  all: match goal with
       | |- context [List.filter is_unlink ?tr] =>
           let us := fresh "us" in
           let Hus := fresh "Hus" in
           remember (List.filter is_unlink tr) as us eqn:Hus;
           simpl in Hus; rewrite ?List.filter_app in Hus; simpl in Hus;
           rewrite ?no_unlink_among_saves in Hus by assumption;
           simpl in Hus; subst us
       end.
  all: split; [ | intros g pl rq Hin; in_trace Hin; try not_returned Hin ].
  all: try (left; reflexivity).
  all: try (right; eexists; split; [find_in|];
            first [ left; eexists; split; [reflexivity|];
                    intros q rq Hc; in_trace Hc; try not_returned Hc
                  | right; eexists; split; [find_in|];
                    first [ left; eexists; reflexivity
                          | right; eexists; reflexivity ] ]).
  all: split; [reflexivity|]; split; [reflexivity|].
  all: first [ exists _, []; split; [find_in | reflexivity]
             | do 2 eexists; split; [find_in | ];
               first [ instantiate (1 := []); reflexivity
                     | instantiate (1 := [_]); reflexivity ] ].
Qed.

(** X12: a failure while the file is examined for barcodes fails the
    task.  When the MIME sniffing, the support test, the conversion, the
    scan or the separation raises, the exception leaves [consume_file]:
    the file is not consumed and nothing is deleted. *)
Theorem consume_file_barcode_failure_blocks_consumption (path : string) (o : Overrides)
    (w : @World Ext) (ev : @Event Obj) (e : exn) :
  let run := consume_file env path o w in
  In ev (trace run) -> raised ev = Some e -> is_barcode_probe ev ->
  outcome run = Raise e /\
  (forall p o' r, ~ In (E_try_consume_file p o' r) (trace run)) /\
  (forall p r, ~ In (E_unlink p r) (trace run)).
Proof.
  cbv zeta. destruct (consume_file env path o w) as [[r w'] tr] eqn:Hrun.
  unfold trace, outcome. simpl.
  explore_consume_file_saves Hrun.
  all: intros Hin Hraised Hprobe; in_trace Hin.
  all: simpl in Hraised; try discriminate Hraised; try contradiction.
  all: try match goal with
       | H : In ?ev ?l, HF : Forall is_save_to_dir ?l |- _ =>
           exfalso; apply (proj1 (List.Forall_forall _ _) HF) in H;
           destruct ev; contradiction
       end.
  all: injection Hraised as <-.
  all: split; [reflexivity|].
  all: split; [intros q o' rq Hu; in_trace Hu | intros q rq Hu; in_trace Hu].
Qed.

(** ** Sanity reporter and index synchronizer, the other paths *)

Lemma log_messages_log (messages : SanityCheckMessages) (w : @World Ext) :
  log_messages env messages w =
    (Ok tt,
     {| db := db w;
        log := log w ++ map (sanity_record (sanity_logger env)) messages;
        ext := ext w; local_document := local_document w |},
     []).
Proof.
  unfold log_messages. revert w.
  induction messages as [|m ms IH]; intros w; simpl.
  - rewrite app_nil_r. now destruct w.
  - unfold mbind, M_bind, emit at 1. rewrite IH. simpl.
    now rewrite <- app_assoc.
Qed.

(** X13: the findings are logged before the outcome is decided, so they
    are in the log also when the task fails: whatever the outcome, the
    log grows by one record per message, in order, the store is untouched
    and the check is the only call.  A failure of the check itself goes
    through with nothing logged. *)
Theorem sanity_check_logs_before_reporting (w : @World Ext) :
  let run := sanity_check env w in
  db (final run) = db w /\
  ((exists messages,
      trace run = [E_check_sanity (Ok messages)] /\
      log (final run) = log w ++ map (sanity_record (sanity_logger env)) messages) \/
   (exists e,
      trace run = [E_check_sanity (Raise e)] /\ outcome run = Raise e /\
      log (final run) = log w)).
Proof.
  cbv zeta. destruct (sanity_check env w) as [[r w'] tr] eqn:Hrun.
  unfold trace, outcome, final. simpl.
  unfold sanity_check, mbind, M_bind, ext_call in Hrun.
  destruct (check_sanity env (ext w)) as [[messages|e] x] eqn:Hcheck.
  - rewrite log_messages_log in Hrun.
    destruct (has_error messages); [|destruct (has_warning messages);
                                      [|destruct (0 <? length messages)%nat]].
    all: injection Hrun as <- <- <-.
    all: split; [reflexivity|]; left; exists messages; split; reflexivity.
  - injection Hrun as <- <- <-.
    split; [reflexivity|]. right. exists e. repeat split.
Qed.

(** X14: ids that match no document still open the index and a writer:
    no signal is sent and no document is updated, and when no call fails
    the run is the opening of the index and an empty session that is
    committed. *)
Theorem bulk_update_without_match (document_ids : list Z) (w : @World Ext) :
  (forall k, In k document_ids -> documents (db w) !! k = None) ->
  let run := bulk_update_documents env document_ids w in
  (forall d r, ~ In (E_post_save_send d r) (trace run)) /\
  (forall writer d r, ~ In (E_update_document writer d r) (trace run)) /\
  (Forall returned (trace run) ->
   outcome run = Ok tt /\
   exists ix writer,
     trace run = [E_open_index (Ok ix); E_AsyncWriter ix (Ok writer);
                  E_commit writer (Ok tt)]).
Proof.
  intros Hnone.
  assert (Hmatch : documents_filter_id_in document_ids (db w) = []).
  { destruct (documents_filter_id_in document_ids (db w)) as [|i l] eqn:E;
      [reflexivity|].
    assert (Hin : In i (documents_filter_id_in document_ids (db w)))
      by (rewrite E; now left).
    apply documents_filter_id_in_spec in Hin. destruct Hin as [Hids Hrow].
    rewrite (Hnone _ Hids) in Hrow. discriminate Hrow. }
  cbv zeta.
  destruct (bulk_update_documents env document_ids w) as [[r w'] tr] eqn:Hrun.
  unfold trace, outcome. simpl.
  unfold bulk_update_documents, notify_all, update_all in Hrun.
  repeat (run_normalise Hrun; first [rewrite Hmatch in Hrun | run_step Hrun]).
  all: run_normalise Hrun; injection Hrun as <- <- <-.
  all: split; [intros d rd Hin; in_trace Hin|].
  all: split; [intros wr d rd Hin; in_trace Hin|].
  all: intros Hq; trace_facts Hq.
  all: repeat match goal with u : unit |- _ => destruct u end.
  all: split; [reflexivity|]; do 2 eexists; reflexivity.
Qed.

(** In the trace of either loop only the last call can have raised. *)
Lemma notify_all_raises_last (documents : list DocumentInstance) (w w' : @World Ext)
    (r : result (list DocumentInstance)) (t : list (@Event Obj)) :
  notify_all env documents w = (r, w', t) ->
  Forall is_post_save_send t /\
  ((Forall returned t /\ exists documents', r = Ok documents') \/
   (exists e t0 d, r = Raise e /\ t = t0 ++ [E_post_save_send d (Raise e)] /\
                   Forall returned t0)).
Proof.
  unfold notify_all. revert w w' r t.
  induction documents as [|d ds IH]; intros w w' r t Hrun; simpl in Hrun.
  - injection Hrun as <- <- <-. split; [constructor|].
    left. split; [constructor | now exists []].
  - unfold mbind, M_bind, db_call at 1 in Hrun.
    destruct (post_save_send env d (db w) (ext w)) as [[[d'|e] dbs] x] eqn:Ef.
    + destruct (for_each_obj _ ds _) as [[r1 w1] t1] eqn:Eloop.
      apply IH in Eloop. destruct Eloop as (Hall & Hcases).
      destruct Hcases as [(Hret & ds' & ->)|(e & t0 & d0 & -> & -> & Hret)];
        injection Hrun as <- <- <-.
      * rewrite app_nil_r. split; [constructor; [exact I|assumption]|].
        left. split; [constructor; [reflexivity|assumption] | now eexists].
      * split; [constructor; [exact I|assumption]|].
        right. exists e, (E_post_save_send d (Ok d') :: t0), d0.
        repeat split. constructor; [reflexivity|assumption].
    + injection Hrun as <- <- <-. split; [repeat constructor|].
      right. exists e, [], d. repeat split. constructor.
Qed.

Lemma update_all_raises_last (writer : Obj) (documents : list DocumentInstance)
    (w w' : @World Ext) (r : result unit) (t : list (@Event Obj)) :
  update_all env writer documents w = (r, w', t) ->
  Forall is_update_document t /\
  ((r = Ok tt /\ Forall returned t) \/
   (exists e t0 d, r = Raise e /\ t = t0 ++ [E_update_document writer d (Raise e)] /\
                   Forall returned t0)).
Proof.
  unfold update_all. intros Hrun.
  apply (for_each_ext_call (fun doc => update_document env writer doc)
                           (fun doc => E_update_document writer doc)) in Hrun.
  destruct Hrun as (_ & _ & _ & [[-> ->]|(l1 & a & l2 & e & _ & -> & ->)]).
  - split; [apply (indexed_is_update_document writer documents)|].
    left. split; [reflexivity|].
    apply List.Forall_forall. intros ev Hin. apply in_map_iff in Hin.
    destruct Hin as (nd & <- & _). reflexivity.
  - split.
    + apply List.Forall_app. split; [apply (indexed_is_update_document writer l1)|].
      repeat constructor.
    + right. exists e. eexists. exists a. split; [reflexivity|]. split; [reflexivity|].
      apply List.Forall_forall. intros ev Hin. apply in_map_iff in Hin.
      destruct Hin as (nd & <- & _). reflexivity.
Qed.

Lemma no_session_among_signals (l : list (@Event Obj)) :
  Forall is_post_save_send l -> List.filter is_session_event l = [].
Proof.
  induction 1 as [|ev l Hev _ IH]; [reflexivity|].
  simpl. rewrite IH. destruct ev; try contradiction; reflexivity.
Qed.

(** The runs of [bulk_update_documents], with what is known of a failed
    loop. *)
Ltac explore_bulk_update H :=
  unfold bulk_update_documents in H; explore H;
  repeat match goal with
  | E : notify_all _ _ _ = _ |- _ =>
      apply notify_all_raises_last in E; simpl in E;
      destruct E as (? & [(? & ? & ?)|(? & ? & ? & ? & ? & ?)]);
      try discriminate; subst
  | E : update_all _ _ _ _ = _ |- _ =>
      apply update_all_raises_last in E; simpl in E;
      destruct E as (? & [(? & ?)|(? & ? & ? & ? & ? & ?)]);
      try discriminate; subst
  end;
  repeat match goal with
  | H : Raise _ = Raise _ |- _ => injection H as H; subst
  | H : Forall _ (_ ++ [_]) |- _ => apply List.Forall_app in H; destruct H as [H _]
  end.

(** Membership in a part of the trace where it cannot be. *)
Ltac not_there H :=
  match type of H with
  | In ?ev ?l =>
      match goal with
      | HF : Forall returned l |- _ =>
          exfalso; apply (proj1 (List.Forall_forall _ _) HF) in H; discriminate H
      | HF : Forall _ l |- _ =>
          exfalso; exact (proj1 (List.Forall_forall _ _) HF _ H)
      end
  end.

(** X15: when a receiver of the post-save signal raises, the task raises
    that exception and the index, although opened, is not written: no
    writer is made, nothing is updated, committed or cancelled. *)
Theorem bulk_update_receiver_failure_skips_index (document_ids : list Z) (w : @World Ext)
    (d : DocumentInstance) (e : exn) :
  let run := bulk_update_documents env document_ids w in
  In (E_post_save_send d (Raise e)) (trace run) ->
  outcome run = Raise e /\
  List.filter is_session_event (trace run) = [].
Proof.
  cbv zeta.
  destruct (bulk_update_documents env document_ids w) as [[r w'] tr] eqn:Hrun.
  unfold trace, outcome. simpl.
  explore_bulk_update Hrun.
  all: intros Hin; in_trace Hin; try not_there Hin.
  all: split; [reflexivity|].
  all: rewrite ?app_nil_r; cbn [List.filter is_session_event].
  all: rewrite ?List.filter_app; cbn [List.filter is_session_event].
  all: rewrite ?no_session_among_signals by assumption; reflexivity.
Qed.

(** X16: when an update of the index raises, the session is cancelled,
    never committed: [cancel] is called on the writer, no [commit] is,
    and the task raises the exception of the update (or the one of the
    cancellation, if that fails too). *)
Theorem bulk_update_failure_cancels (document_ids : list Z) (w : @World Ext)
    (writer : Obj) (d : DocumentInstance) (e : exn) :
  let run := bulk_update_documents env document_ids w in
  In (E_update_document writer d (Raise e)) (trace run) ->
  (forall writer' r, ~ In (E_commit writer' r) (trace run)) /\
  exists rc,
    In (E_cancel writer rc) (trace run) /\
    outcome run = match rc with
                  | Ok _ => Raise e
                  | Raise e' => Raise e'
                  end.
Proof.
  cbv zeta.
  destruct (bulk_update_documents env document_ids w) as [[r w'] tr] eqn:Hrun.
  unfold trace, outcome. simpl.
  explore_bulk_update Hrun.
  all: intros Hin; in_trace Hin; try not_there Hin.
  all: split; [intros wr rc Hc; in_trace Hc; try not_there Hc|].
  all: eexists; split; [find_in | reflexivity].
Qed.

(** X17: the documents a list of ids selects do not depend on the order
    of the ids or on repetitions among them, and no document is selected
    twice. *)
Theorem documents_filter_id_in_set (ids ids' : list Z) (d : Database) :
  (forall k, In k ids <-> In k ids') ->
  documents_filter_id_in ids d = documents_filter_id_in ids' d /\
  NoDup (map pk (documents_filter_id_in ids d)).
Proof.
  intros Hsame. unfold documents_filter_id_in.
  assert (Heq : forall k, existsb (Z.eqb k) ids = existsb (Z.eqb k) ids').
  { intros k. apply eq_true_iff_eq. rewrite !existsb_exists.
    split; intros (k' & Hin & Hk); exists k'; (split; [now apply Hsame | exact Hk]). }
  split.
  - apply list_omap_ext. apply Forall2_same_length_lookup. split; [reflexivity|].
    intros i [k v] [k' v'] H1 H2. rewrite H1 in H2. injection H2 as <- <-.
    simpl. now rewrite Heq.
  - pose proof (NoDup_fst_map_to_list (documents d)) as Hnd.
    induction (map_to_list (documents d)) as [|[k v] l IH]; simpl; [constructor|].
    inversion Hnd as [|? ? Hnotin Hnd']; subst.
    destruct (existsb (Z.eqb k) ids); simpl; [|now apply IH].
    constructor; [|now apply IH].
    intros Hin. apply Hnotin. clear - Hin.
    induction l as [|[k' v'] l IH]; simpl in *; [inversion Hin|].
    destruct (existsb (Z.eqb k') ids); simpl in *.
    + inversion Hin; subst; [left|right; now apply IH].
    + right. now apply IH.
Qed.


(** Every value of type [unit] is [tt]. *)
Ltac units :=
  repeat match goal with
  | u : unit |- _ => destruct u
  end.

(** The last event of an explicit trace is in it. *)
Ltac in_last := first [ right; in_last | left; reflexivity ].

(** Choose the alternative of a disjunction that holds by computation. *)
Ltac choose :=
  first [ solve [repeat eexists] | left; solve [repeat eexists] | right; choose ].

(** X18: an exception raised before the [try] of
    [update_document_archive_file], by the parser lookup, by [uuid4] or by
    the construction of the parser, leaves the task as it is: nothing is
    logged, the store is untouched and no [cleanup] is called. *)
Theorem archive_setup_failure_propagates (document_id : Z) (w : @World Ext)
    (ev : @Event Obj) (e : exn) :
  let run := update_document_archive_file env document_id w in
  In ev (trace run) -> is_archive_setup ev -> raised ev = Some e ->
  outcome run = Raise e /\
  db (final run) = db w /\
  log (final run) = log w /\
  List.filter is_cleanup (trace run) = [].
Proof.
  cbv zeta. destruct (update_document_archive_file env document_id w)
    as [[r w'] tr] eqn:Hrun.
  unfold trace, final, outcome. simpl.
  explore_archive Hrun.
  all: intros Hin Hsetup Hraised; in_trace Hin.
  all: simpl in Hsetup, Hraised; try contradiction; try discriminate Hraised.
  all: injection Hraised as <-; repeat split.
Qed.

(** X19: the store after [update_document_archive_file] is the store
    before it, or that store with the three archive columns of the
    document written, and the second exactly when the task got as far as
    opening the index writer.  So every failure up to the release of the
    lock rolls the update back, and no failure after it does. *)
Theorem archive_store_commit_or_rollback (document_id : Z) (w : @World Ext) :
  let run := update_document_archive_file env document_id w in
  ((forall r, ~ In (E_open_index_writer_enter r) (trace run)) /\
   db (final run) = db w) \/
  (exists r archive data parser text unique r0,
     documents (db w) !! document_id = Some r0 /\
     In (E_open_index_writer_enter r) (trace run) /\
     In (E_open_read archive (Ok data)) (trace run) /\
     In (E_get_text parser (Ok text)) (trace run) /\
     In (E_generate_unique_filename {| pk := document_id; row := r0 |} true (Ok unique))
        (trace run) /\
     db (final run)
     = update_archive_columns document_id (md5_hexdigest env data) text unique (db w)).
Proof.
  cbv zeta. destruct (update_document_archive_file env document_id w)
    as [[r w'] tr] eqn:Hrun.
  unfold trace, final. simpl.
  explore_archive Hrun.
  all: first
    [ solve [left; split; [intros rw Hin; in_trace Hin | reflexivity]]
    | right; do 7 eexists;
      split; [first [eassumption | reflexivity]|];
      split; [find_in|]; split; [find_in|]; split; [find_in|]; split; [find_in|];
      reflexivity ].
Qed.

(** X20: the instance handed to the index is the one loaded at the start
    with its [archive_filename] set to the generated name: its [content]
    and [archive_checksum] are still those read before the task, not the
    ones just written to the store.  The index is only reached after the
    lock was released without an exception. *)
Theorem archive_indexes_renamed_instance (document_id : Z) (w : @World Ext)
    (writer : Obj) (d : DocumentInstance) (r : result unit) :
  let run := update_document_archive_file env document_id w in
  In (E_update_document writer d r) (trace run) ->
  exists r0 unique,
    documents (db w) !! document_id = Some r0 /\
    In (E_generate_unique_filename {| pk := document_id; row := r0 |} true (Ok unique))
       (trace run) /\
    In (E_FileLock_release (MEDIA_LOCK (settings env)) (Ok tt)) (trace run) /\
    pk d = document_id /\
    archive_filename (row d) = Some unique /\
    content (row d) = content r0 /\
    archive_checksum (row d) = archive_checksum r0.
Proof.
  cbv zeta. destruct (update_document_archive_file env document_id w)
    as [[ro w'] tr] eqn:Hrun.
  unfold trace. simpl.
  explore_archive Hrun.
  all: intros Hin; in_trace Hin.
  all: units.
  all: do 2 eexists; split; [first [eassumption | reflexivity]|].
  all: split; [find_in|]; split; [find_in|].
  all: repeat split.
Qed.

(** X21: the lock and the two moves.  The moves are made only while the
    media lock is held, the thumbnail is moved only after the archive file
    was, a move that fails is not undone by another move, and a lock that
    was acquired is released on every path. *)
Theorem archive_moves_under_lock (document_id : Z) (w : @World Ext) :
  let run := update_document_archive_file env document_id w in
  let lock := MEDIA_LOCK (settings env) in
  let critical := List.filter (fun ev => is_lock_event ev || is_move ev) (trace run) in
  critical = [] \/
  (exists e, critical = [E_FileLock_acquire lock (Raise e)]) \/
  (exists released,
     critical = [E_FileLock_acquire lock (Ok tt); E_FileLock_release lock released]) \/
  (exists archive target e released,
     critical = [E_FileLock_acquire lock (Ok tt);
                 E_move archive target (Raise e);
                 E_FileLock_release lock released]) \/
  (exists archive target thumbnail target' moved released,
     critical = [E_FileLock_acquire lock (Ok tt);
                 E_move archive target (Ok tt);
                 E_move (Some thumbnail) target' moved;
                 E_FileLock_release lock released]).
Proof.
  cbv zeta. destruct (update_document_archive_file env document_id w)
    as [[r w'] tr] eqn:Hrun.
  unfold trace. simpl.
  explore_archive Hrun.
  all: units; cbn [List.filter is_lock_event is_move orb app].
  all: choose.
Qed.

(** X22: the ways [update_document_archive_file] can raise.  The document
    does not exist; a call before the [try] raised; [cleanup] raised; or
    the body raised an exception that is not an [Exception], which goes on
    after the cleanup.  No [Exception] of the body leaves the task. *)
Theorem archive_failure_modes (document_id : Z) (w : @World Ext) (e : exn) :
  let run := update_document_archive_file env document_id w in
  outcome run = Raise e ->
  (documents (db w) !! document_id = None /\ trace run = [] /\
   exn_class e = DoesNotExist) \/
  (exists ev, In ev (trace run) /\ is_archive_setup ev /\ raised ev = Some e) \/
  (exists parser, In (E_cleanup parser (Raise e)) (trace run)) \/
  (is_Exception e = false /\
   exists parser, In (E_cleanup parser (Ok tt)) (trace run)).
Proof.
  cbv zeta. destruct (update_document_archive_file env document_id w)
    as [[r w'] tr] eqn:Hrun.
  unfold trace, outcome. simpl.
  explore_archive Hrun.
  all: intros Hout; try discriminate Hout; injection Hout as <-; units.
  all: first
    [ solve [left; repeat split; first [assumption | reflexivity]]
    | solve [right; left; eexists; split; [in_last | split; [exact I | reflexivity]]]
    | solve [right; right; left; eexists; find_in]
    | solve [right; right; right;
             split; [first [assumption | reflexivity] | eexists; find_in]] ].
Qed.

(** X23: an index writer that was opened is closed: its exit is called
    once the update returned or raised, and is told the exception of the
    update if there was one. *)
Theorem archive_index_writer_closed (document_id : Z) (w : @World Ext) (writer : Obj) :
  let run := update_document_archive_file env document_id w in
  In (E_open_index_writer_enter (Ok writer)) (trace run) ->
  exists d r closed,
    In (E_update_document writer d r) (trace run) /\
    In (E_open_index_writer_exit writer (raised_by r) closed) (trace run).
Proof.
  cbv zeta. destruct (update_document_archive_file env document_id w)
    as [[ro w'] tr] eqn:Hrun.
  unfold trace. simpl.
  explore_archive Hrun.
  all: intros Hin; in_trace Hin.
  all: do 3 eexists; split; find_in.
Qed.

(** X24: the task logs at most one record, at level [ERROR], under the
    logger of the module. *)
Theorem archive_logs_at_most_once (document_id : Z) (w : @World Ext) :
  let run := update_document_archive_file env document_id w in
  log (final run) = log w \/
  exists msg exc,
    log (final run)
    = log w ++ [ {| lr_name := logger; lr_level := ERROR; lr_msg := msg;
                    lr_exc_info := exc |} ].
Proof.
  cbv zeta. destruct (update_document_archive_file env document_id w)
    as [[r w'] tr] eqn:Hrun.
  unfold final. simpl.
  explore_archive Hrun.
  all: simpl; first [ left; reflexivity | right; do 2 eexists; reflexivity ].
Qed.

End Properties.

(** ** The theorems at concrete runs *)

(** Exhibit an event in a trace that was computed. *)
Ltac pick := repeat first [ left; reflexivity | right ].

Lemma archive_move_failure_rolls_back_witness :
  In (E_move (Some scratch_thumbnail) ["media"; "thumbnails"; "0000001.webp"]
             (Raise (FileNotFoundError scratch_thumbnail)))
     (trace (update_document_archive_file (scripted_env missing_thumbnail) 1
                                          (demo_world originals))) /\
  db (final (update_document_archive_file (scripted_env missing_thumbnail) 1
                                          (demo_world originals)))
  = db (demo_world originals).
Proof.
  assert (H : In (E_move (Some scratch_thumbnail) ["media"; "thumbnails"; "0000001.webp"]
                         (Raise (FileNotFoundError scratch_thumbnail)))
                 (trace (update_document_archive_file (scripted_env missing_thumbnail) 1
                                                      (demo_world originals)))).
  { vm_compute. pick. }
  split; [exact H|].
  exact (archive_move_failure_rolls_back (scripted_env missing_thumbnail) 1
           (demo_world originals) _ _ _ H).
Defined.

Lemma sanity_check_precedence_witness :
  check_sanity (scripted_env (with_messages findings split_script)) (ext (demo_world []))
  = (Ok findings, []) /\
  outcome (sanity_check (scripted_env (with_messages findings split_script)) (demo_world []))
  = Raise (Exn SanityCheckFailedException "Sanity check failed with errors. See log.").
Proof.
  split; [reflexivity|].
  assert (He : any_level ERROR findings).
  { exists {| sm_level := ERROR;
              sm_message := "Original of document 1 does not exist." |}.
    split; [simpl; tauto | reflexivity]. }
  assert (Hw : any_level WARNING findings).
  { exists {| sm_level := WARNING;
              sm_message := "Orphaned file in media dir: /media/x.pdf" |}.
    split; [simpl; tauto | reflexivity]. }
  pose proof (sanity_check_precedence (scripted_env (with_messages findings split_script))
                (demo_world []) findings [] eq_refl) as T.
  cbv zeta in T. destruct T as (_ & _ & _ & _ & T).
  exact (proj1 (T He Hw)).
Defined.

Lemma consume_file_publish_failure_witness :
  In (E_group_send "status_updates" (split_payload no_overrides)
                   (Raise ConnectionRefusedError))
     (trace (consume_file (scripted_env (with_publish (Raise ConnectionRefusedError)
                                                      split_script))
                          "scan.tiff" no_overrides (demo_world scan_tiff))) /\
  outcome (consume_file (scripted_env (with_publish (Raise ConnectionRefusedError)
                                                    split_script))
                        "scan.tiff" no_overrides (demo_world scan_tiff))
  = Ok "File successfully split".
Proof.
  assert (H : In (E_group_send "status_updates" (split_payload no_overrides)
                               (Raise ConnectionRefusedError))
     (trace (consume_file (scripted_env (with_publish (Raise ConnectionRefusedError)
                                                      split_script))
                          "scan.tiff" no_overrides (demo_world scan_tiff)))).
  { vm_compute. pick. }
  split; [exact H|].
  exact (proj1 (proj1 (consume_file_publish_failure _ _ _ _ _ _ _ H) eq_refl)).
Defined.

(** The publish raises outside [OSError]: the exception leaves the task,
    after the original was deleted. *)
Lemma consume_file_publish_failure_propagates :
  In (E_group_send "status_updates" (split_payload no_overrides) (Raise AttributeError))
     (trace (consume_file (scripted_env (with_publish (Raise AttributeError) split_script))
                          "scan.tiff" no_overrides (demo_world scan_tiff))) /\
  outcome (consume_file (scripted_env (with_publish (Raise AttributeError) split_script))
                        "scan.tiff" no_overrides (demo_world scan_tiff))
  = Raise AttributeError /\
  outcome (consume_file (scripted_env (with_publish (Raise AttributeError) split_script))
                        "scan.tiff" no_overrides (demo_world scan_tiff))
  <> Ok "File successfully split".
Proof.
  split; [vm_compute; pick|]. split; [reflexivity|]. vm_compute. discriminate.
Qed.

Lemma consume_file_keeps_original_without_parts_witness :
  In (E_separate_pages scratch_pdf [1%nat] (Ok []))
     (trace (consume_file (scripted_env no_parts) "scan.tiff" no_overrides
                          (demo_world scan_tiff))) /\
  forall p r,
    ~ In (E_unlink p r)
         (trace (consume_file (scripted_env no_parts) "scan.tiff" no_overrides
                              (demo_world scan_tiff))).
Proof.
  assert (H : In (E_separate_pages scratch_pdf [1%nat] (Ok []))
                 (trace (consume_file (scripted_env no_parts) "scan.tiff" no_overrides
                                      (demo_world scan_tiff)))).
  { vm_compute. pick. }
  split; [exact H|].
  exact (proj1 (proj2 (proj2
           (proj1 (consume_file_keeps_original_without_parts
                     (scripted_env no_parts) "scan.tiff" no_overrides
                     (demo_world scan_tiff)) _ _ H)))).
Defined.

Lemma consume_file_tiff_without_parts_witness :
  In (E_convert_from_tiff_to_pdf ["consume"; "scan.tiff"] (Ok scratch_pdf))
     (trace (consume_file (scripted_env no_separators) "scan.tiff" no_overrides
                          (demo_world scan_tiff))) /\
  In (E_scan_file_for_separating_barcodes scratch_pdf (Ok []))
     (trace (consume_file (scripted_env no_separators) "scan.tiff" no_overrides
                          (demo_world scan_tiff))) /\
  (forall q r,
     ~ In (E_unlink q r)
          (trace (consume_file (scripted_env no_separators) "scan.tiff" no_overrides
                               (demo_world scan_tiff)))) /\
  exists r,
    In (E_try_consume_file ["consume"; "scan.tiff"] no_overrides r)
       (trace (consume_file (scripted_env no_separators) "scan.tiff" no_overrides
                            (demo_world scan_tiff))).
Proof.
  assert (Hc : In (E_convert_from_tiff_to_pdf ["consume"; "scan.tiff"] (Ok scratch_pdf))
     (trace (consume_file (scripted_env no_separators) "scan.tiff" no_overrides
                          (demo_world scan_tiff)))).
  { vm_compute. pick. }
  assert (Hs : In (E_scan_file_for_separating_barcodes scratch_pdf (Ok []))
     (trace (consume_file (scripted_env no_separators) "scan.tiff" no_overrides
                          (demo_world scan_tiff)))).
  { vm_compute. pick. }
  split; [exact Hc|]. split; [exact Hs|].
  pose proof (consume_file_tiff_without_parts (scripted_env no_separators) "scan.tiff"
                no_overrides (demo_world scan_tiff) _ _ Hc (or_introl Hs)) as T.
  destruct T as (_ & _ & Hu & Ht & _). split; [exact Hu | exact Ht].
Defined.

Lemma consume_file_split_witness :
  In (E_separate_pages scratch_pdf [1%nat] (Ok (sc_parts split_script)))
     (trace (consume_file (scripted_env split_script) "scan.tiff" named
                          (demo_world scan_tiff))) /\
  sc_parts split_script <> [] /\
  Forall quiet (trace (consume_file (scripted_env split_script) "scan.tiff" named
                                    (demo_world scan_tiff))) /\
  outcome (consume_file (scripted_env split_script) "scan.tiff" named
                        (demo_world scan_tiff))
  = Ok "File successfully split" /\
  In (E_save_to_dir ["tmp"; "paperless"; "scan_1.pdf"] (Some "1_scan.pdf") ["consume"]
                    (Ok tt))
     (trace (consume_file (scripted_env split_script) "scan.tiff" named
                          (demo_world scan_tiff))).
Proof.
  assert (Hin : In (E_separate_pages scratch_pdf [1%nat] (Ok (sc_parts split_script)))
     (trace (consume_file (scripted_env split_script) "scan.tiff" named
                          (demo_world scan_tiff)))).
  { vm_compute. pick. }
  assert (Hne : sc_parts split_script <> []) by discriminate.
  assert (Hq : Forall quiet
                 (trace (consume_file (scripted_env split_script) "scan.tiff" named
                                      (demo_world scan_tiff)))).
  { vm_compute. repeat constructor. }
  split; [exact Hin|]. split; [exact Hne|]. split; [exact Hq|].
  pose proof (consume_file_split (scripted_env split_script) "scan.tiff" named
                (demo_world scan_tiff) _ _ _ Hin Hne) as T.
  destruct T as (_ & _ & _ & T). destruct (T Hq) as (Hout & _).
  split; [exact Hout|]. vm_compute. pick.
Defined.

Lemma archive_no_parser_witness :
  documents (db (demo_world originals)) !! 1 = Some invoice /\
  get_parser_class_for_mime_type (scripted_env no_parser) (mime_type invoice)
                                 (ext (demo_world originals))
  = (Ok None, originals) /\
  outcome (update_document_archive_file (scripted_env no_parser) 1 (demo_world originals))
  = Ok tt /\
  db (final (update_document_archive_file (scripted_env no_parser) 1
                                          (demo_world originals)))
  = db (demo_world originals).
Proof.
  assert (Hrow : documents (db (demo_world originals)) !! 1 = Some invoice)
    by reflexivity.
  split; [exact Hrow|]. split; [reflexivity|].
  pose proof (archive_no_parser (scripted_env no_parser) 1 (demo_world originals)
                invoice originals Hrow eq_refl) as T.
  destruct T as (Hout & Hdb & _). split; [exact Hout | exact Hdb].
Defined.



Lemma train_classifier_noop_witness :
  no_automatic_matching (db (demo_world [])) /\
  train_classifier (scripted_env split_script) (demo_world [])
  = (Ok tt, demo_world [], []).
Proof.
  assert (H : no_automatic_matching (db (demo_world []))).
  { repeat split; intros k t Hl; simpl in Hl.
    - apply lookup_singleton_Some in Hl. destruct Hl as [_ <-]. discriminate.
    - rewrite lookup_empty in Hl. discriminate Hl.
    - apply lookup_singleton_Some in Hl. destruct Hl as [_ <-]. discriminate.
    - rewrite lookup_empty in Hl. discriminate Hl. }
  split; [exact H|].
  exact (train_classifier_noop (scripted_env split_script) (demo_world []) H).
Defined.

Lemma bulk_update_notifies_then_indexes_witness :
  Forall returned (trace (bulk_update_documents (scripted_env split_script) [1; 2; 3]
                                                (demo_world []))) /\
  outcome (bulk_update_documents (scripted_env split_script) [1; 2; 3] (demo_world []))
  = Ok tt.
Proof.
  assert (H : Forall returned
                (trace (bulk_update_documents (scripted_env split_script) [1; 2; 3]
                                              (demo_world [])))).
  { vm_compute. repeat constructor. }
  split; [exact H|].
  pose proof (bulk_update_notifies_then_indexes (scripted_env split_script) [1; 2; 3]
                (demo_world [])) as T.
  destruct T as (_ & _ & T). exact (proj1 (T H)).
Defined.

(** ** Runs on concrete inputs *)

Example str_path_scan : str_path ["consume"; "scan.tiff"] = "/consume/scan.tiff".
Proof. reflexivity. Qed.

Example newname_second_part : newname named 1 = Some "1_scan.pdf".
Proof. reflexivity. Qed.

Example newname_without_override : newname no_overrides 1 = None.
Proof. reflexivity. Qed.

Example filter_id_in_two_ids :
  map pk (documents_filter_id_in [3; 1; 7] demo_db) = [3; 1].
Proof. vm_compute. reflexivity. Qed.

(** The scenario of the spec: ids 1, 2 and 3, one signal each, then one
    writer session over the three. *)
Example bulk_update_three_documents :
  map raised (trace (bulk_update_documents (scripted_env split_script) [1; 2; 3]
                                           (demo_world [])))
  = [None; None; None; None; None; None; None; None; None] /\
  exists i1 i2 i3,
    trace (bulk_update_documents (scripted_env split_script) [1; 2; 3] (demo_world []))
    = [E_open_index (Ok 1%nat);
       E_post_save_send i1 (Ok i1); E_post_save_send i2 (Ok i2);
       E_post_save_send i3 (Ok i3);
       E_AsyncWriter 1%nat (Ok 2%nat);
       E_update_document 2%nat i1 (Ok tt); E_update_document 2%nat i2 (Ok tt);
       E_update_document 2%nat i3 (Ok tt);
       E_commit 2%nat (Ok tt)].
Proof. split; [vm_compute; reflexivity|]. do 3 eexists. vm_compute. reflexivity. Qed.

(** The scenario of the spec: a TIFF with one separator, two parts. *)
Example consume_file_tiff_split :
  outcome (consume_file (scripted_env split_script) "scan.tiff" named (demo_world scan_tiff))
  = Ok "File successfully split" /\
  ext (final (consume_file (scripted_env split_script) "scan.tiff" named
                           (demo_world scan_tiff)))
  = [["consume"; "1_scan.pdf"]; ["consume"; "0_scan.pdf"];
     ["tmp"; "paperless"; "scan_0.pdf"]; ["tmp"; "paperless"; "scan_1.pdf"]].
Proof. split; vm_compute; reflexivity. Qed.

(** The archive of document 1 is regenerated: with the thumbnail in place
    the three columns are written; with the thumbnail missing the second
    move raises and the row is as before, though the archive file has
    moved. *)
Example archive_regenerated :
  documents (db (final (update_document_archive_file (scripted_env split_script) 1
                                                     (demo_world originals)))) !! 1
  = Some {| mime_type := "application/pdf";
            checksum := "d41d8cd98f00b204e9800998ecf8427e";
            content := "Invoice 2022-03"; filename := Some "0000001.pdf";
            archive_checksum := Some "5f2b51ca2fdc5baa31ec02e002f69aec";
            archive_filename := Some "0000001.pdf" |}.
Proof. vm_compute. reflexivity. Qed.

Example archive_not_regenerated :
  documents (db (final (update_document_archive_file (scripted_env missing_thumbnail) 1
                                                     (demo_world originals)))) !! 1
  = Some invoice /\
  outcome (update_document_archive_file (scripted_env missing_thumbnail) 1
                                        (demo_world originals))
  = Ok tt /\
  ext (final (update_document_archive_file (scripted_env missing_thumbnail) 1
                                           (demo_world originals)))
  = [["media"; "archive"; "0000001.pdf"]; ["media"; "originals"; "0000001.pdf"]].
Proof. repeat split; vm_compute; reflexivity. Qed.

(** ** The further theorems at concrete runs *)

Lemma train_classifier_loads_when_automatic_witness :
  some_automatic_matching (db (replay_world auto_db [])) /\
  exists r rest,
    trace (train_classifier (replay_env true) (replay_world auto_db []))
    = E_load_classifier r :: rest.
Proof.
  assert (H : some_automatic_matching (db (replay_world auto_db []))).
  { exists 1%Z, {| name := "inbox"; matching_algorithm := MATCH_AUTO |}.
    split; [left; vm_compute; reflexivity | reflexivity]. }
  split; [exact H|].
  exact (train_classifier_loads_when_automatic (replay_env true)
           (replay_world auto_db []) H).
Defined.

Lemma train_classifier_trains_loaded_or_fresh_witness :
  In (E_load_classifier (Ok (Some 5%nat)))
     (trace (train_classifier (replay_env true) (replay_world auto_db []))) /\
  exists r,
    In (E_train 5%nat r)
       (trace (train_classifier (replay_env true) (replay_world auto_db []))).
Proof.
  assert (H : In (E_load_classifier (Ok (Some 5%nat)))
                 (trace (train_classifier (replay_env true) (replay_world auto_db [])))).
  { vm_compute. pick. }
  split; [exact H|].
  pose proof (train_classifier_trains_loaded_or_fresh (replay_env true)
                (replay_world auto_db [])) as T.
  cbv zeta in T. destruct T as (T & _). exact (proj2 (T _ H)).
Defined.

Lemma train_classifier_saves_when_changed_witness :
  In (E_train 5%nat (Ok false))
     (trace (train_classifier (replay_env true)
                              (replay_world auto_db training_unchanged))) /\
  outcome (train_classifier (replay_env true) (replay_world auto_db training_unchanged))
  = Ok tt.
Proof.
  assert (H : In (E_train 5%nat (Ok false))
                 (trace (train_classifier (replay_env true)
                                          (replay_world auto_db training_unchanged)))).
  { vm_compute. pick. }
  split; [exact H|].
  pose proof (train_classifier_saves_when_changed (replay_env true)
                (replay_world auto_db training_unchanged)) as T.
  cbv zeta in T. destruct T as (_ & _ & T). exact (proj1 (proj2 (T _ H))).
Defined.

Lemma train_classifier_contains_training_errors_witness :
  In (E_train 5%nat (Raise MemoryError))
     (trace (train_classifier (replay_env true) (replay_world auto_db training_fails))) /\
  is_Exception MemoryError = true /\
  outcome (train_classifier (replay_env true) (replay_world auto_db training_fails))
  = Ok tt.
Proof.
  assert (H : In (E_train 5%nat (Raise MemoryError))
                 (trace (train_classifier (replay_env true)
                                          (replay_world auto_db training_fails)))).
  { vm_compute. pick. }
  split; [exact H|]. split; [reflexivity|].
  pose proof (train_classifier_contains_training_errors (replay_env true)
                (replay_world auto_db training_fails)) as T.
  cbv zeta in T. destruct T as (T & _).
  exact (proj1 (T _ _ (or_introl H) eq_refl)).
Defined.

Lemma consume_file_barcodes_disabled_witness :
  CONSUMER_ENABLE_BARCODES (settings (replay_env false)) = false /\
  log (final (consume_file (replay_env false) "scan.pdf" no_overrides
                           (replay_world demo_db [])))
  = log (replay_world demo_db []).
Proof.
  split; [reflexivity|].
  pose proof (consume_file_barcodes_disabled (replay_env false) "scan.pdf" no_overrides
                (replay_world demo_db []) eq_refl) as T.
  cbv zeta in T. exact (proj1 T).
Defined.

Lemma consume_file_unsupported_type_witness :
  In (E_supported_file_type "application/pdf" (Ok false))
     (trace (consume_file (replay_env true) "scan.pdf" no_overrides
                          (replay_world demo_db unsupported_type))) /\
  exists p r,
    trace (consume_file (replay_env true) "scan.pdf" no_overrides
                        (replay_world demo_db unsupported_type))
    = [E_resolve "scan.pdf" (Ok p); E_get_file_mime_type p (Ok "application/pdf");
       E_supported_file_type "application/pdf" (Ok false);
       E_try_consume_file p no_overrides r].
Proof.
  assert (H : In (E_supported_file_type "application/pdf" (Ok false))
                 (trace (consume_file (replay_env true) "scan.pdf" no_overrides
                                      (replay_world demo_db unsupported_type)))).
  { vm_compute. pick. }
  split; [exact H|].
  pose proof (consume_file_unsupported_type (replay_env true) "scan.pdf" no_overrides
                (replay_world demo_db unsupported_type) _ H) as T.
  cbv zeta in T. exact (proj1 T).
Defined.

Lemma consume_file_reports_consumer_outcome_witness :
  In (E_try_consume_file ["consume"; "scan.pdf"] no_overrides (Ok (Some consumed)))
     (trace (consume_file (replay_env false) "scan.pdf" no_overrides
                          (replay_world demo_db []))) /\
  outcome (consume_file (replay_env false) "scan.pdf" no_overrides
                        (replay_world demo_db []))
  = Ok ("Success. New document id " +:+ str_Z (pk consumed) +:+ " created").
Proof.
  assert (H : In (E_try_consume_file ["consume"; "scan.pdf"] no_overrides
                                     (Ok (Some consumed)))
                 (trace (consume_file (replay_env false) "scan.pdf" no_overrides
                                      (replay_world demo_db [])))).
  { vm_compute. pick. }
  split; [exact H|].
  pose proof (consume_file_reports_consumer_outcome (replay_env false) "scan.pdf"
                no_overrides (replay_world demo_db [])) as T.
  cbv zeta in T. destruct T as (T & _). exact (proj2 (proj2 (T _ _ _ H))).
Defined.

Lemma consume_file_save_failure_keeps_original_witness :
  In (E_save_to_dir ["tmp"; "paperless"; "scan_1.pdf"] None ["consume"] (Raise DiskFull))
     (trace (consume_file (replay_env true) "scan.tiff" no_overrides
                          (replay_world demo_db second_part_fails))) /\
  outcome (consume_file (replay_env true) "scan.tiff" no_overrides
                        (replay_world demo_db second_part_fails))
  = Raise DiskFull.
Proof.
  assert (H : In (E_save_to_dir ["tmp"; "paperless"; "scan_1.pdf"] None ["consume"]
                                (Raise DiskFull))
                 (trace (consume_file (replay_env true) "scan.tiff" no_overrides
                                      (replay_world demo_db second_part_fails)))).
  { vm_compute. pick. }
  split; [exact H|].
  pose proof (consume_file_save_failure_keeps_original (replay_env true) "scan.tiff"
                no_overrides (replay_world demo_db second_part_fails) _ _ _ _ H) as T.
  cbv zeta in T. exact (proj1 T).
Defined.

Lemma consume_file_store_untouched_without_consumer_witness :
  (forall p o' r,
     ~ In (E_try_consume_file p o' r)
          (trace (consume_file (replay_env true) "scan.tiff" no_overrides
                               (replay_world demo_db [])))) /\
  db (final (consume_file (replay_env true) "scan.tiff" no_overrides
                          (replay_world demo_db [])))
  = db (replay_world demo_db []).
Proof.
  assert (H : forall p o' r,
             ~ In (E_try_consume_file p o' r)
                  (trace (consume_file (replay_env true) "scan.tiff" no_overrides
                                       (replay_world demo_db [])))).
  { intros p o' r Hin. vm_compute in Hin.
    repeat (destruct Hin as [Hin|Hin]; [discriminate Hin|]). exact Hin. }
  split; [exact H|].
  exact (consume_file_store_untouched_without_consumer (replay_env true) "scan.tiff"
           no_overrides (replay_world demo_db []) H).
Defined.

Lemma consume_file_scans_converted_only_for_tiff_witness :
  In (E_scan_file_for_separating_barcodes scratch_pdf (Ok [1%nat]))
     (trace (consume_file (replay_env true) "scan.tiff" no_overrides
                          (replay_world demo_db []))) /\
  exists p mime,
    In (E_resolve "scan.tiff" (Ok p))
       (trace (consume_file (replay_env true) "scan.tiff" no_overrides
                            (replay_world demo_db []))) /\
    In (E_get_file_mime_type p (Ok mime))
       (trace (consume_file (replay_env true) "scan.tiff" no_overrides
                            (replay_world demo_db []))).
Proof.
  assert (H : In (E_scan_file_for_separating_barcodes scratch_pdf (Ok [1%nat]))
                 (trace (consume_file (replay_env true) "scan.tiff" no_overrides
                                      (replay_world demo_db [])))).
  { vm_compute. pick. }
  split; [exact H|].
  pose proof (consume_file_scans_converted_only_for_tiff (replay_env true) "scan.tiff"
                no_overrides (replay_world demo_db []) _ _ H) as T.
  cbv zeta in T. destruct T as (p & mime & Hp & Hm & _).
  exists p, mime. split; [exact Hp | exact Hm].
Defined.

Lemma consume_file_deletion_order_witness :
  In (E_group_send "status_updates" (split_payload no_overrides) (Ok tt))
     (trace (consume_file (replay_env true) "scan.tiff" no_overrides
                          (replay_world demo_db []))) /\
  exists p before,
    In (E_resolve "scan.tiff" (Ok p))
       (trace (consume_file (replay_env true) "scan.tiff" no_overrides
                            (replay_world demo_db []))) /\
    List.filter is_unlink
      (trace (consume_file (replay_env true) "scan.tiff" no_overrides
                           (replay_world demo_db [])))
    = before ++ [E_unlink p (Ok tt)].
Proof.
  assert (H : In (E_group_send "status_updates" (split_payload no_overrides) (Ok tt))
                 (trace (consume_file (replay_env true) "scan.tiff" no_overrides
                                      (replay_world demo_db [])))).
  { vm_compute. pick. }
  split; [exact H|].
  pose proof (consume_file_deletion_order (replay_env true) "scan.tiff" no_overrides
                (replay_world demo_db [])) as T.
  cbv zeta in T. destruct T as (_ & T). exact (proj2 (proj2 (T _ _ _ H))).
Defined.

Lemma consume_file_barcode_failure_blocks_consumption_witness :
  In (E_convert_from_tiff_to_pdf ["consume"; "scan.tiff"] (Raise DiskFull))
     (trace (consume_file (replay_env true) "scan.tiff" no_overrides
                          (replay_world demo_db conversion_fails))) /\
  raised (E_convert_from_tiff_to_pdf (Obj := nat) ["consume"; "scan.tiff"] (Raise DiskFull))
  = Some DiskFull /\
  is_barcode_probe (E_convert_from_tiff_to_pdf (Obj := nat) ["consume"; "scan.tiff"]
                                               (Raise DiskFull)) /\
  outcome (consume_file (replay_env true) "scan.tiff" no_overrides
                        (replay_world demo_db conversion_fails))
  = Raise DiskFull.
Proof.
  assert (H : In (E_convert_from_tiff_to_pdf ["consume"; "scan.tiff"] (Raise DiskFull))
                 (trace (consume_file (replay_env true) "scan.tiff" no_overrides
                                      (replay_world demo_db conversion_fails)))).
  { vm_compute. pick. }
  split; [exact H|]. split; [reflexivity|]. split; [exact I|].
  pose proof (consume_file_barcode_failure_blocks_consumption (replay_env true)
                "scan.tiff" no_overrides (replay_world demo_db conversion_fails)
                _ _ H eq_refl I) as T.
  cbv zeta in T. exact (proj1 T).
Defined.

Lemma bulk_update_without_match_witness :
  (forall k, In k [7; 9]%Z -> documents (db (replay_world demo_db [])) !! k = None) /\
  Forall returned
         (trace (bulk_update_documents (replay_env true) [7; 9]%Z
                                       (replay_world demo_db []))) /\
  outcome (bulk_update_documents (replay_env true) [7; 9]%Z (replay_world demo_db []))
  = Ok tt.
Proof.
  assert (H : forall k, In k [7; 9]%Z ->
                        documents (db (replay_world demo_db [])) !! k = None).
  { intros k [<-|[<-|[]]]; vm_compute; reflexivity. }
  assert (Hq : Forall returned
                 (trace (bulk_update_documents (replay_env true) [7; 9]%Z
                                               (replay_world demo_db [])))).
  { vm_compute. repeat constructor. }
  split; [exact H|]. split; [exact Hq|].
  pose proof (bulk_update_without_match (replay_env true) [7; 9]%Z
                (replay_world demo_db []) H) as T.
  cbv zeta in T. destruct T as (_ & _ & T). exact (proj1 (T Hq)).
Defined.

Lemma bulk_update_receiver_failure_skips_index_witness :
  In (E_post_save_send {| pk := 1; row := invoice |} (Raise MemoryError))
     (trace (bulk_update_documents (replay_env true) [1; 2]%Z
                                   (replay_world demo_db receiver_fails))) /\
  outcome (bulk_update_documents (replay_env true) [1; 2]%Z
                                 (replay_world demo_db receiver_fails))
  = Raise MemoryError /\
  List.filter is_session_event
    (trace (bulk_update_documents (replay_env true) [1; 2]%Z
                                  (replay_world demo_db receiver_fails)))
  = [].
Proof.
  assert (H : In (E_post_save_send {| pk := 1; row := invoice |} (Raise MemoryError))
                 (trace (bulk_update_documents (replay_env true) [1; 2]%Z
                                               (replay_world demo_db receiver_fails)))).
  { vm_compute. pick. }
  split; [exact H|].
  exact (bulk_update_receiver_failure_skips_index (replay_env true) [1; 2]%Z
           (replay_world demo_db receiver_fails) _ _ H).
Defined.

Lemma bulk_update_failure_cancels_witness :
  In (E_update_document 2%nat {| pk := 2; row := letter |} (Raise DiskFull))
     (trace (bulk_update_documents (replay_env true) [1; 2]%Z
                                   (replay_world demo_db update_fails))) /\
  forall writer r,
    ~ In (E_commit writer r)
         (trace (bulk_update_documents (replay_env true) [1; 2]%Z
                                       (replay_world demo_db update_fails))).
Proof.
  assert (H : In (E_update_document 2%nat {| pk := 2; row := letter |} (Raise DiskFull))
                 (trace (bulk_update_documents (replay_env true) [1; 2]%Z
                                               (replay_world demo_db update_fails)))).
  { vm_compute. pick. }
  split; [exact H|].
  pose proof (bulk_update_failure_cancels (replay_env true) [1; 2]%Z
                (replay_world demo_db update_fails) _ _ _ H) as T.
  cbv zeta in T. exact (proj1 T).
Defined.

Lemma documents_filter_id_in_set_witness :
  (forall k, In k [1; 3; 1]%Z <-> In k [3; 1]%Z) /\
  documents_filter_id_in [1; 3; 1]%Z demo_db = documents_filter_id_in [3; 1]%Z demo_db.
Proof.
  assert (H : forall k, In k [1; 3; 1]%Z <-> In k [3; 1]%Z).
  { intros k. simpl. tauto. }
  split; [exact H|].
  exact (proj1 (documents_filter_id_in_set [1; 3; 1]%Z [3; 1]%Z demo_db H)).
Defined.

Lemma archive_setup_failure_propagates_witness :
  In (E_uuid4 (Raise MemoryError))
     (trace (update_document_archive_file (replay_env true) 1
                                          (replay_world demo_db uuid_fails))) /\
  is_archive_setup (E_uuid4 (Obj := nat) (Raise MemoryError)) /\
  raised (E_uuid4 (Obj := nat) (Raise MemoryError)) = Some MemoryError /\
  outcome (update_document_archive_file (replay_env true) 1
                                        (replay_world demo_db uuid_fails))
  = Raise MemoryError.
Proof.
  assert (H : In (E_uuid4 (Raise MemoryError))
                 (trace (update_document_archive_file (replay_env true) 1
                                                      (replay_world demo_db uuid_fails)))).
  { vm_compute. pick. }
  split; [exact H|]. split; [exact I|]. split; [reflexivity|].
  pose proof (archive_setup_failure_propagates (replay_env true) 1
                (replay_world demo_db uuid_fails) _ _ H I eq_refl) as T.
  cbv zeta in T. exact (proj1 T).
Defined.

Lemma archive_indexes_renamed_instance_witness :
  In (E_update_document 2%nat
        (set_archive_filename {| pk := 1; row := invoice |} "0000001.pdf") (Ok tt))
     (trace (update_document_archive_file (replay_env true) 1
                                          (replay_world demo_db []))) /\
  exists r0 unique,
    documents (db (replay_world demo_db [])) !! 1%Z = Some r0 /\
    archive_filename
      (row (set_archive_filename {| pk := 1; row := invoice |} "0000001.pdf"))
    = Some unique /\
    content (row (set_archive_filename {| pk := 1; row := invoice |} "0000001.pdf"))
    = content r0.
Proof.
  assert (H : In (E_update_document 2%nat
                    (set_archive_filename {| pk := 1; row := invoice |} "0000001.pdf")
                    (Ok tt))
                 (trace (update_document_archive_file (replay_env true) 1
                                                      (replay_world demo_db [])))).
  { vm_compute. pick. }
  split; [exact H|].
  pose proof (archive_indexes_renamed_instance (replay_env true) 1
                (replay_world demo_db []) _ _ _ H) as T.
  cbv zeta in T. destruct T as (r0 & unique & Hrow & _ & _ & _ & Hname & Hcontent & _).
  exists r0, unique. split; [exact Hrow|]. split; [exact Hname | exact Hcontent].
Defined.

Lemma archive_failure_modes_witness :
  outcome (update_document_archive_file (replay_env true) 1
                                        (replay_world demo_db uuid_fails))
  = Raise MemoryError /\
  ((documents (db (replay_world demo_db uuid_fails)) !! 1%Z = None /\
    trace (update_document_archive_file (replay_env true) 1
                                        (replay_world demo_db uuid_fails)) = [] /\
    exn_class MemoryError = DoesNotExist) \/
   (exists ev,
      In ev (trace (update_document_archive_file (replay_env true) 1
                                                 (replay_world demo_db uuid_fails))) /\
      is_archive_setup ev /\ raised ev = Some MemoryError) \/
   (exists parser,
      In (E_cleanup parser (Raise MemoryError))
         (trace (update_document_archive_file (replay_env true) 1
                                              (replay_world demo_db uuid_fails)))) \/
   (is_Exception MemoryError = false /\
    exists parser,
      In (E_cleanup parser (Ok tt))
         (trace (update_document_archive_file (replay_env true) 1
                                              (replay_world demo_db uuid_fails))))).
Proof.
  assert (H : outcome (update_document_archive_file (replay_env true) 1
                                                    (replay_world demo_db uuid_fails))
              = Raise MemoryError) by reflexivity.
  split; [exact H|].
  exact (archive_failure_modes (replay_env true) 1 (replay_world demo_db uuid_fails)
           _ H).
Defined.

Lemma archive_index_writer_closed_witness :
  In (E_open_index_writer_enter (Ok 2%nat))
     (trace (update_document_archive_file (replay_env true) 1
                                          (replay_world demo_db []))) /\
  exists d r closed,
    In (E_update_document 2%nat d r)
       (trace (update_document_archive_file (replay_env true) 1
                                            (replay_world demo_db []))) /\
    In (E_open_index_writer_exit 2%nat (raised_by r) closed)
       (trace (update_document_archive_file (replay_env true) 1
                                            (replay_world demo_db []))).
Proof.
  assert (H : In (E_open_index_writer_enter (Ok 2%nat))
                 (trace (update_document_archive_file (replay_env true) 1
                                                      (replay_world demo_db [])))).
  { vm_compute. pick. }
  split; [exact H|].
  exact (archive_index_writer_closed (replay_env true) 1 (replay_world demo_db []) _ H).
Defined.
